(** * GPS_RTC_Clock: a shallow embedding of the Arduino sketch

    The sketch [GPS_RTC_Clock.ino] runs on an Arduino Uno (AVR): [int] and
    [unsigned int] are 16 bits wide, [char] is a signed byte,
    [unsigned long] is 32 bits wide.  Integers are modelled as [Z] with the
    conversions of the target written out.  The sketch's global variables
    and the devices it drives (RTC, GPS decoder, TFT, serial port,
    backlight pin) form one record, [World]; the sketch's functions are
    computations in a state monad over it whose only other effect is the
    endless loop [while(true);].  What the sketch reads from outside
    ([millis()], [analogRead], the decoded GPS object, the local broken-down
    time) is passed in as arguments. *)

From Stdlib Require Import ZArith List String Bool Lia.
Import ListNotations.
Local Open Scope Z_scope.

(** ** Machine integers of the AVR target *)

Module Avr.

Definition u8 (z : Z) : Z := z mod 256.
Definition u16 (z : Z) : Z := z mod 65536.
Definition u32 (z : Z) : Z := z mod 4294967296.
(** Conversion to a signed 16-bit [int]; arithmetic on [int] that leaves
    the range wraps around on this target. *)
Definition i16 (z : Z) : Z := (z + 32768) mod 65536 - 32768.

(** Arduino's [abs] is the macro [((x)>0?(x):-(x))]. *)
Definition abs (x : Z) : Z := if 0 <? x then x else - x.

End Avr.
Import Avr.

(** ** Devices *)

(** The 16-bit colour constants of the display library's header that the
    sketch names.  The sketch only stores, compares and passes them on. *)
Inductive Color : Type :=
| ILI9340_BLACK
| ILI9340_BLUE
| ILI9340_RED
| ILI9340_GREEN
| ILI9340_WHITE.

Definition Color_eqb (a b : Color) : bool :=
  match a, b with
  | ILI9340_BLACK, ILI9340_BLACK
  | ILI9340_BLUE, ILI9340_BLUE
  | ILI9340_RED, ILI9340_RED
  | ILI9340_GREEN, ILI9340_GREEN
  | ILI9340_WHITE, ILI9340_WHITE => true
  | _, _ => false
  end.

(** Calls made on the [tft] object, in the order they are made.  The
    arguments are recorded as the sketch passes them. *)
Inductive TftCall : Type :=
| tft_begin
| fillScreen (c : Color)
| drawFastHLine (x y w : Z) (c : Color)
| drawFastVLine (x y h : Z) (c : Color)
| fillCircle (x y r : Z) (c : Color)
| setCursor (x y : Z)
| setTextColor (fg bg : Color)
| setTextSize (s : Z)
| tft_print (s : string)
| tft_print_num (n : Z)
| tft_println (s : string).

(** Calls made on [Serial]. *)
Inductive SerialCall : Type :=
| Serial_print (s : string)
| Serial_print_num (n : Z)
| Serial_println (s : string)
| Serial_println_num (n : Z)
| Serial_newline.

(** [DateTime] of RTClib, by its accessors. *)
Record DateTime : Type := mkDateTime {
  dt_year : Z; dt_month : Z; dt_day : Z;
  dt_hour : Z; dt_minute : Z; dt_second : Z
}.

(** What the sketch reads from the [TinyGPSPlus] object. *)
Record TinyGPSPlus : Type := mkGps {
  date_isValid : bool; time_isValid : bool;
  date_year : Z; date_month : Z; date_day : Z;
  time_hour : Z; time_minute : Z; time_second : Z;
  satellites_value : Z;
  charsProcessed : Z
}.

(** The broken-down form of a [time_t], by the accessors of the Time
    library ([hour(t)], [minute(t)], ...). *)
Record tm : Type := mkTm {
  tm_second : Z; tm_minute : Z; tm_hour : Z;
  tm_weekday : Z; tm_day : Z; tm_month : Z; tm_year : Z
}.

(** [hourFormat12] of the Time library. *)
Definition hourFormat12 (t : tm) : Z :=
  if tm_hour t =? 0 then 12
  else if 12 <? tm_hour t then tm_hour t - 12
  else tm_hour t.

(** ** The world: the sketch's globals and the devices' state *)

Record World : Type := mkWorld {
  (* globals of the sketch *)
  rtcSet : bool;
  backlightVal : Z;
  numberColor : Color;
  colorChange : Z;
  photocellReading : Z;
  utc : Z;
  local : tm;
  previousMillis : Z;
  currentMillis : Z;
  syncTimer : Z;
  scheduledTimer : Z;
  newboot : bool;
  (* devices *)
  gps : TinyGPSPlus;          (* the decoder object *)
  rtc : DateTime;             (* what [rtc.now()] reports *)
  rtc_adjusts : list DateTime;(* every [rtc.adjust] made so far *)
  tft : list TftCall;         (* every call on the display so far *)
  serial : list SerialCall;   (* every call on the serial port so far *)
  backlight : list Z          (* every [analogWrite(backlightPin, _)] *)
}.

Definition set_rtcSet (v : bool) (w : World) : World :=
  let '(mkWorld _ a2 a3 a4 a5 a6 a7 a8 a9 a10 a11 a12 a13 a14 a15 a16 a17 a18) := w in
  mkWorld v a2 a3 a4 a5 a6 a7 a8 a9 a10 a11 a12 a13 a14 a15 a16 a17 a18.
Definition set_backlightVal (v : Z) (w : World) : World :=
  let '(mkWorld a1 _ a3 a4 a5 a6 a7 a8 a9 a10 a11 a12 a13 a14 a15 a16 a17 a18) := w in
  mkWorld a1 v a3 a4 a5 a6 a7 a8 a9 a10 a11 a12 a13 a14 a15 a16 a17 a18.
Definition set_numberColor (v : Color) (w : World) : World :=
  let '(mkWorld a1 a2 _ a4 a5 a6 a7 a8 a9 a10 a11 a12 a13 a14 a15 a16 a17 a18) := w in
  mkWorld a1 a2 v a4 a5 a6 a7 a8 a9 a10 a11 a12 a13 a14 a15 a16 a17 a18.
Definition set_colorChange (v : Z) (w : World) : World :=
  let '(mkWorld a1 a2 a3 _ a5 a6 a7 a8 a9 a10 a11 a12 a13 a14 a15 a16 a17 a18) := w in
  mkWorld a1 a2 a3 v a5 a6 a7 a8 a9 a10 a11 a12 a13 a14 a15 a16 a17 a18.
Definition set_photocellReading (v : Z) (w : World) : World :=
  let '(mkWorld a1 a2 a3 a4 _ a6 a7 a8 a9 a10 a11 a12 a13 a14 a15 a16 a17 a18) := w in
  mkWorld a1 a2 a3 a4 v a6 a7 a8 a9 a10 a11 a12 a13 a14 a15 a16 a17 a18.
Definition set_utc (v : Z) (w : World) : World :=
  let '(mkWorld a1 a2 a3 a4 a5 _ a7 a8 a9 a10 a11 a12 a13 a14 a15 a16 a17 a18) := w in
  mkWorld a1 a2 a3 a4 a5 v a7 a8 a9 a10 a11 a12 a13 a14 a15 a16 a17 a18.
Definition set_local (v : tm) (w : World) : World :=
  let '(mkWorld a1 a2 a3 a4 a5 a6 _ a8 a9 a10 a11 a12 a13 a14 a15 a16 a17 a18) := w in
  mkWorld a1 a2 a3 a4 a5 a6 v a8 a9 a10 a11 a12 a13 a14 a15 a16 a17 a18.
Definition set_currentMillis (v : Z) (w : World) : World :=
  let '(mkWorld a1 a2 a3 a4 a5 a6 a7 a8 _ a10 a11 a12 a13 a14 a15 a16 a17 a18) := w in
  mkWorld a1 a2 a3 a4 a5 a6 a7 a8 v a10 a11 a12 a13 a14 a15 a16 a17 a18.
Definition set_syncTimer (v : Z) (w : World) : World :=
  let '(mkWorld a1 a2 a3 a4 a5 a6 a7 a8 a9 _ a11 a12 a13 a14 a15 a16 a17 a18) := w in
  mkWorld a1 a2 a3 a4 a5 a6 a7 a8 a9 v a11 a12 a13 a14 a15 a16 a17 a18.
Definition set_scheduledTimer (v : Z) (w : World) : World :=
  let '(mkWorld a1 a2 a3 a4 a5 a6 a7 a8 a9 a10 _ a12 a13 a14 a15 a16 a17 a18) := w in
  mkWorld a1 a2 a3 a4 a5 a6 a7 a8 a9 a10 v a12 a13 a14 a15 a16 a17 a18.
Definition set_newboot (v : bool) (w : World) : World :=
  let '(mkWorld a1 a2 a3 a4 a5 a6 a7 a8 a9 a10 a11 _ a13 a14 a15 a16 a17 a18) := w in
  mkWorld a1 a2 a3 a4 a5 a6 a7 a8 a9 a10 a11 v a13 a14 a15 a16 a17 a18.
Definition set_gps (v : TinyGPSPlus) (w : World) : World :=
  let '(mkWorld a1 a2 a3 a4 a5 a6 a7 a8 a9 a10 a11 a12 _ a14 a15 a16 a17 a18) := w in
  mkWorld a1 a2 a3 a4 a5 a6 a7 a8 a9 a10 a11 a12 v a14 a15 a16 a17 a18.
Definition set_rtc (v : DateTime) (w : World) : World :=
  let '(mkWorld a1 a2 a3 a4 a5 a6 a7 a8 a9 a10 a11 a12 a13 _ a15 a16 a17 a18) := w in
  mkWorld a1 a2 a3 a4 a5 a6 a7 a8 a9 a10 a11 a12 a13 v a15 a16 a17 a18.
Definition set_rtc_adjusts (v : list DateTime) (w : World) : World :=
  let '(mkWorld a1 a2 a3 a4 a5 a6 a7 a8 a9 a10 a11 a12 a13 a14 _ a16 a17 a18) := w in
  mkWorld a1 a2 a3 a4 a5 a6 a7 a8 a9 a10 a11 a12 a13 a14 v a16 a17 a18.
Definition set_tft (v : list TftCall) (w : World) : World :=
  let '(mkWorld a1 a2 a3 a4 a5 a6 a7 a8 a9 a10 a11 a12 a13 a14 a15 _ a17 a18) := w in
  mkWorld a1 a2 a3 a4 a5 a6 a7 a8 a9 a10 a11 a12 a13 a14 a15 v a17 a18.
Definition set_serial (v : list SerialCall) (w : World) : World :=
  let '(mkWorld a1 a2 a3 a4 a5 a6 a7 a8 a9 a10 a11 a12 a13 a14 a15 a16 _ a18) := w in
  mkWorld a1 a2 a3 a4 a5 a6 a7 a8 a9 a10 a11 a12 a13 a14 a15 a16 v a18.
Definition set_backlight (v : list Z) (w : World) : World :=
  let '(mkWorld a1 a2 a3 a4 a5 a6 a7 a8 a9 a10 a11 a12 a13 a14 a15 a16 a17 _) := w in
  mkWorld a1 a2 a3 a4 a5 a6 a7 a8 a9 a10 a11 a12 a13 a14 a15 a16 a17 v.

(** ** The monad of sketch code: state over [World], plus hanging *)

Inductive Res (A : Type) : Type :=
| Ret (a : A) (w : World)      (* the call returns *)
| Hang (w : World).            (* the call never returns: [while(true);] *)
Arguments Ret {A} a w.
Arguments Hang {A} w.

Definition M (A : Type) : Type := World -> Res A.

Definition ret {A} (a : A) : M A := fun w => Ret a w.

Definition bind {A B} (m : M A) (k : A -> M B) : M B :=
  fun w => match m w with
           | Ret a w' => k a w'
           | Hang w' => Hang w'
           end.

Declare Scope sketch_scope.
Delimit Scope sketch_scope with sketch.
Notation "x <- m ;; k" := (bind m (fun x => k))
  (at level 61, m at next level, right associativity) : sketch_scope.
Notation "m ;; k" := (bind m (fun _ => k))
  (at level 61, right associativity) : sketch_scope.
Local Open Scope sketch_scope.

Definition gets {A} (f : World -> A) : M A := fun w => Ret (f w) w.
Definition modify (f : World -> World) : M unit := fun w => Ret tt (f w).
Definition hang {A} : M A := fun w => Hang w.
Definition when (b : bool) (m : M unit) : M unit := if b then m else ret tt.

Definition world_of {A} (r : Res A) : World :=
  match r with Ret _ w => w | Hang w => w end.
Definition hangs {A} (r : Res A) : bool :=
  match r with Ret _ _ => false | Hang _ => true end.
(** The world a computation leaves behind. *)
Definition exec {A} (m : M A) (w : World) : World := world_of (m w).

(** Device primitives. *)
Definition tft_call (c : TftCall) : M unit :=
  modify (fun w => set_tft (tft w ++ [c]) w).
Definition tft_calls (cs : list TftCall) : M unit :=
  modify (fun w => set_tft (tft w ++ cs) w).
Definition Serial_call (c : SerialCall) : M unit :=
  modify (fun w => set_serial (serial w ++ [c]) w).
Definition analogWrite_backlight (v : Z) : M unit :=
  modify (fun w => set_backlight (backlight w ++ [v]) w).
Definition rtc_now : M DateTime := gets rtc.
Definition rtc_adjust (d : DateTime) : M unit :=
  modify (fun w => set_rtc_adjusts (rtc_adjusts w ++ [d]) (set_rtc d w)).

(** ** The seven-segment renderer, [draw7Number] *)

Module SevenSeg.

(** [nums]: segment definitions of the ten digits, blank (index 10) and
    the minus sign (index 11). *)
Definition nums : list Z :=
  [0x3F; 0x06; 0x5B; 0x4F; 0x66; 0x6D; 0x7D; 0x07; 0x7F; 0x67; 0x00; 0x40].

Definition blank : Z := 10.
Definition minus : Z := 11.

(** [c]: "get character size between 1 and 10 ignoring sign". *)
Definition char_size (cS : Z) : Z :=
  let c := u8 (abs cS) in
  let c := if 10 <? c then 10 else c in
  if c <? 1 then 1 else c.

(** [cnt]: "get number of digits between 1 and 10 ignoring sign". *)
Definition digit_count (nD : Z) : Z :=
  let cnt := u8 (abs nD) in
  let cnt := if 10 <? cnt then 10 else cnt in
  if cnt <? 1 then 1 else cnt.

Definition S2 (cS : Z) : Z := u16 (5 * cS).   (* width of horizontal segments *)
Definition S3 (cS : Z) : Z := u16 (2 * cS).   (* thickness of a segment *)
Definition S4 (cS : Z) : Z := u16 (7 * cS).   (* height of vertical segments *)

(** [d = S2 + (3 * S3) + 2], the distance between two digit cells. *)
Definition pitch (cS : Z) : Z := u16 (S2 cS + 3 * S3 cS + 2).

(** [seg]: x, y and direction (1 = horizontal) of the seven segments. *)
Definition seg (cS yLoc : Z) : list (Z * Z * bool) :=
  let x1 := u16 (cS + 1) in
  let x2 := u16 (S3 cS + S2 cS + 1) in
  let y1 := u16 (yLoc + x1) in
  let y3 := u16 (yLoc + S3 cS + S4 cS + 1) in
  [ (x1, yLoc, true); (x2, y1, false); (x2, u16 (y3 + x1), false);
    (x1, u16 (2 * y3 - yLoc), true); (0, u16 (y3 + x1), false);
    (0, y1, false); (x1, y3, true) ].

(** One line of a segment: a horizontal segment is made of horizontal
    lines at [(a, b)], a vertical one of vertical lines at [(b, a)]. *)
Definition stroke (horizontal : bool) (a b w : Z) (col : Color) : TftCall :=
  if horizontal then drawFastHLine a b w col else drawFastVLine b a w col.

(** The first loop of a segment, [while (b < h) { draw; a--; b++; w += 2; }].
    It returns the calls made and the final [(a, b, w)].  [fuel] bounds
    the iterations; [widen_exits] shows that [h - b] of them reach the
    exit test. *)
Fixpoint widen (fuel : nat) (horizontal : bool) (col : Color)
    (a b w h : Z) : list TftCall * (Z * Z * Z) :=
  match fuel with
  | O => ([], (a, b, w))
  | S fuel' =>
      if b <? h then
        let '(calls, r) :=
          widen fuel' horizontal col (u16 (a - 1)) (u16 (b + 1)) (u16 (w + 2)) h in
        (stroke horizontal a b w col :: calls, r)
      else ([], (a, b, w))
  end.

(** The second loop, [while (b < t) { draw; b++; a++; w -= 2; }]. *)
Fixpoint narrow (fuel : nat) (horizontal : bool) (col : Color)
    (a b w t : Z) : list TftCall :=
  match fuel with
  | O => []
  | S fuel' =>
      if b <? t then
        stroke horizontal a b w col ::
        narrow fuel' horizontal col (u16 (a + 1)) (u16 (b + 1)) (u16 (w - 2)) t
      else []
  end.

(** The body of [for (j = 0; j < 7; ++j)] for one segment. *)
Definition draw_segment (cS xLoc : Z) (col : Color) (sg : Z * Z * bool)
  : list TftCall :=
  let '(sx, sy, horizontal) := sg in
  let '(w, t, h, a, b) :=
    if horizontal
    then (S2 cS, u16 (sy + S3 cS), u16 (sy + cS), u16 (xLoc + sx + cS), sy)
    else (S4 cS, u16 (xLoc + sx + S3 cS), u16 (xLoc + sx + cS),
          u16 (sy + cS), u16 (xLoc + sx)) in
  let '(top, (a', b', w')) := widen (Z.to_nat (h - b)) horizontal col a b w h in
  top ++ narrow (Z.to_nat (t - b')) horizontal col a' b' w' t.

(** All seven segments of glyph [i] at [xLoc]: segment [j] is drawn in
    [fC] when bit [j] of [nums[i]] is set and in [bC] otherwise. *)
Definition draw_glyph (cS xLoc yLoc : Z) (fC bC : Color) (i : Z)
  : list TftCall :=
  flat_map
    (fun '(j, sg) =>
       let col := if Z.testbit (nth (Z.to_nat i) nums 0) j then fC else bC in
       draw_segment cS xLoc col sg)
    (combine [0; 1; 2; 3; 4; 5; 6] (seg cS yLoc)).

(** The choice of the glyph in one pass of [while (cnt > 0)], after
    [--cnt]. *)
Definition glyph_of (n nD : Z) (cnt : nat) (num : Z) : Z :=
  if 9 <? num then num mod 10
  else if (cnt =? 0)%nat && (n <? 0) then minus
  else if (nD <? 0) && (num =? 0) then blank
  else num.

(** The passes of [while (cnt > 0)]: each yields the glyph it draws and
    the [xLoc] it draws it at, then trims [num] and moves [xLoc] by [d].
    Drawing changes none of the loop's variables, so the calls are made
    from this list afterwards, in the same order. *)
Fixpoint cells (cnt : nat) (n nD num xLoc d : Z) : list (Z * Z) :=
  match cnt with
  | O => []
  | S cnt' =>
      (glyph_of n nD cnt' num, xLoc) ::
      cells cnt' n nD (num / 10) (u16 (xLoc - d)) d
  end.

(** The cells of a call, in the order drawn. *)
Definition cells_of (n xLoc cS nD : Z) : list (Z * Z) :=
  let num := u16 (abs n) in
  let c := char_size cS in
  let cnt := digit_count nD in
  let d := pitch cS in
  let xLoc := u16 (xLoc + (cnt - 1) * d) in
  cells (Z.to_nat cnt) n nD num xLoc d.

Definition draw7Number (n xLoc yLoc cS : Z) (fC bC : Color) (nD : Z)
  : list TftCall :=
  flat_map (fun '(i, x) => draw_glyph cS x yLoc fC bC i)
           (cells_of n xLoc cS nD).
Arguments draw7Number : simpl never.

(** The glyphs a call draws, most-significant position first: the loop
    starts at the rightmost cell and moves left. *)
Definition glyphs (n xLoc cS nD : Z) : list Z :=
  rev (map fst (cells_of n xLoc cS nD)).

End SevenSeg.
Import SevenSeg.

(** ** The sketch *)

Definition daysOfTheWeek : list string :=
  ["  Sunday  "; "  Monday  "; " Tuesday "; "Wednesday"; " Thursday ";
   "  Friday  "; " Saturday "]%string.

Definition Serial_println_str (s : string) : M unit := Serial_call (Serial_println s).
Definition Serial_print_str (s : string) : M unit := Serial_call (Serial_print s).

Definition secondsBorder : M unit :=
  tft_call (drawFastHLine 0 72 240 ILI9340_BLUE) ;;
  tft_call (drawFastHLine 0 73 240 ILI9340_BLUE) ;;
  tft_call (drawFastHLine 0 74 240 ILI9340_BLUE) ;;
  tft_call (drawFastHLine 0 90 240 ILI9340_BLUE) ;;
  tft_call (drawFastHLine 0 91 240 ILI9340_BLUE) ;;
  tft_call (drawFastHLine 0 92 240 ILI9340_BLUE).

(** The first seconds animation of the sketch; [loop] does not call it. *)
Definition secondDotDisplay1 : M unit :=
  l <- gets local ;;
  when (tm_second l =? 0)
    (tft_call (drawFastHLine 0 80 240 ILI9340_BLACK) ;;
     tft_call (drawFastHLine 0 81 240 ILI9340_BLACK) ;;
     tft_call (drawFastHLine 0 82 240 ILI9340_BLACK) ;;
     tft_call (drawFastHLine 0 83 240 ILI9340_BLACK)) ;;
  tft_call (drawFastVLine (tm_second l * 4) 80 5 ILI9340_GREEN).

Definition secondDotDisplay2 : M unit :=
  l <- gets local ;;
  when (tm_second l =? 0)
    (tft_call (drawFastVLine 236 80 4 ILI9340_BLACK) ;;
     tft_call (drawFastVLine 232 80 4 ILI9340_BLACK)) ;;
  tft_call (drawFastVLine (tm_second l * 4 - 8) 80 4 ILI9340_BLACK) ;;
  tft_call (drawFastVLine (tm_second l * 4 - 4) 80 3 ILI9340_BLACK) ;;
  tft_call (drawFastVLine (tm_second l * 4) 80 5 ILI9340_GREEN) ;;
  tft_call (drawFastVLine (tm_second l * 4 + 4) 83 2 ILI9340_GREEN).

(** [reading] is what [analogRead(photocellPin)] returns. *)
Definition setNumberColor (reading : Z) : M unit :=
  modify (set_photocellReading reading) ;;
  l <- gets local ;;
  p <- gets photocellReading ;;
  c <- gets numberColor ;;
  if ((20 <=? tm_hour l) || (tm_hour l <? 6)) && (p <=? 100) then
    when (negb (Color_eqb c ILI9340_RED))
      (modify (set_numberColor ILI9340_RED) ;;
       modify (set_colorChange 2))
  else
    when (negb (Color_eqb c ILI9340_WHITE))
      (modify (set_numberColor ILI9340_WHITE) ;;
       modify (set_colorChange 2)).

Definition setBackLightBrightness (reading : Z) : M unit :=
  modify (set_photocellReading reading) ;;
  p <- gets photocellReading ;;
  when (100 <? p) (modify (set_backlightVal 255)) ;;
  when (p <=? 100) (modify (set_backlightVal 50)) ;;
  when (p <=? 50) (modify (set_backlightVal 20)) ;;
  when (p <? 20) (modify (set_backlightVal 5)) ;;
  v <- gets backlightVal ;;
  analogWrite_backlight v.

(** [if (xpos % 2) xpos = xpos - 5;] *)
Definition odd_shift (xpos : Z) : Z :=
  if Z.rem xpos 2 =? 0 then xpos else xpos - 5.

(** [ms] is what [millis()] returns. *)
Definition tftDisplayDate (ms : Z) : M unit :=
  set <- gets rtcSet ;;
  c <- gets numberColor ;;
  if negb set then
    tft_call (setCursor 65 50) ;;
    tft_call (setTextColor c ILI9340_BLACK) ;;
    tft_call (setTextSize 1) ;;
    tft_call (tft_println "Waiting for GPS Fix")
  else
    l <- gets local ;;
    cc <- gets colorChange ;;
    when (((tm_hour l =? 0) && (tm_minute l <? 5)) || (ms <? 2500) || (0 <? cc))
      (_now <- rtc_now ;;
       tft_call (setTextColor c ILI9340_BLACK) ;;
       tft_call (setTextSize 2) ;;
       let dayname := nth (Z.to_nat (tm_weekday l - 1)) daysOfTheWeek ""%string in
       let daychars := Z.of_nat (String.length dayname) in
       let xpos := odd_shift (120 - (Z.quot daychars 2 * 10)) in
       tft_call (setCursor xpos 10) ;;
       tft_call (tft_print dayname) ;;
       let datechars := 6 in
       let datechars := if tm_month l <? 10 then datechars + 1 else datechars + 2 in
       let datechars := if tm_day l <? 10 then datechars + 1 else datechars + 2 in
       let xpos := odd_shift (120 - (Z.quot datechars 2 * 15)) in
       tft_call (setCursor xpos 40) ;;
       tft_call (setTextColor c ILI9340_BLACK) ;;
       tft_call (setTextSize 3) ;;
       tft_call (tft_print_num (tm_month l)) ;;
       tft_call (tft_print "/") ;;
       tft_call (tft_print_num (tm_day l)) ;;
       tft_call (tft_print "/") ;;
       tft_call (tft_print_num (tm_year l)) ;;
       modify (set_colorChange (i16 (cc - 1)))).

Definition tftDisplayTime (ms : Z) : M unit :=
  set <- gets rtcSet ;;
  c <- gets numberColor ;;
  if negb set then
    tft_call (setCursor 30 150) ;;
    tft_call (setTextColor c ILI9340_BLACK) ;;
    tft_call (setTextSize 2) ;;
    tft_call (tft_println "Waiting for GPS Fix")
  else
    l <- gets local ;;
    cc <- gets colorChange ;;
    when ((tm_second l =? 0) || (ms <? 2500) || (0 <? cc))
      (tft_call (fillCircle 115 150 4 c) ;;
       tft_call (fillCircle 115 200 4 c) ;;
       tft_calls (draw7Number (hourFormat12 l) 0 125 5 c ILI9340_BLACK (-2)) ;;
       tft_calls (draw7Number (tm_minute l) 130 125 5 c ILI9340_BLACK 2) ;;
       modify (set_colorChange (i16 (cc - 1)))).

Definition tftDisplayGPSsats (ms : Z) : M unit :=
  l <- gets local ;;
  when ((tm_second l =? 30) || (ms <? 2500))
    (tft_call (setCursor 90 300) ;;
     tft_call (setTextColor ILI9340_WHITE ILI9340_BLACK) ;;
     tft_call (setTextSize 1) ;;
     tft_call (tft_print "GPS Sats: ") ;;
     g <- gets gps ;;
     tft_call (tft_print_num (satellites_value g)) ;;
     tft_call (tft_print "  ")).

(** The pattern [checkRTCset] takes for a clock that was never set. *)
Definition rtc_default (now : DateTime) : bool :=
  (dt_hour now =? 0) && (dt_minute now =? 0) && (dt_second now =? 0)
  && (dt_year now <? 2010).

Definition checkRTCset : M unit :=
  now <- rtc_now ;;
  if rtc_default now then
    Serial_println_str "*** RTC TIME NOT SET. ***" ;;
    Serial_call Serial_newline
  else
    modify (set_rtcSet true) ;;
    Serial_println_str "RTC TIME SET." ;;
    Serial_call Serial_newline.

(** The [DateTime] built from the decoder's date and time. *)
Definition gps_DateTime (g : TinyGPSPlus) : DateTime :=
  mkDateTime (date_year g) (date_month g) (date_day g)
             (time_hour g) (time_minute g) (time_second g).

Definition setRTCfromGPS : M unit :=
  Serial_println_str "Setting RTC from GPS" ;;
  Serial_call Serial_newline ;;
  g <- gets gps ;;
  if date_isValid g && time_isValid g then
    rtc_adjust (gps_DateTime g) ;;
    Serial_println_str "RTC set from GPS"
  else
    Serial_println_str "No GPS fix yet. Can't set RTC yet.".

Definition syncOnBoot : M unit :=
  nb <- gets newboot ;;
  when nb
    (g <- gets gps ;;
     let satcount := i16 (satellites_value g) in
     if date_isValid g && time_isValid g && (4 <? satcount) then
       Serial_print_str "New boot. Need to update RTC with GPS time. Sat count: " ;;
       Serial_call (Serial_println_num satcount) ;;
       setRTCfromGPS ;;
       modify (set_newboot false) ;;
       modify (set_syncTimer 0)
     else
       cm <- gets currentMillis ;;
       st <- gets syncTimer ;;
       when (u32 (st + 250) <? cm)
         (Serial_print_str "GPS not ready yet. Waiting for fix. Sat count: " ;;
          Serial_call (Serial_println_num satcount) ;;
          modify (set_syncTimer cm))).

Definition scheduledSync : M unit :=
  cm <- gets currentMillis ;;
  st <- gets scheduledTimer ;;
  when (u32 (st + 60000) <? cm)
    (_now <- rtc_now ;;
     l <- gets local ;;
     when (tm_minute l =? 21)
       (Serial_println_str "Scheduled RTC sync from GPS Time" ;;
        setRTCfromGPS) ;;
     modify (set_scheduledTimer cm)).

(** What one pass of [loop()] reads from outside, in the order read. *)
Record CycleIn : Type := mkCycleIn {
  in_millis : Z;        (* [millis()] at the top of [loop] *)
  in_gps : TinyGPSPlus; (* the decoder once the buffered bytes are fed to it *)
  in_utc : Z;           (* [now()] *)
  in_local : tm;        (* [usCentral.toLocal(utc, &tcr)], broken down *)
  in_light_color : Z;   (* [analogRead] in [setNumberColor] *)
  in_ms_date : Z;       (* [millis()] in [tftDisplayDate] *)
  in_ms_time : Z;       (* [millis()] in [tftDisplayTime] *)
  in_ms_sats : Z;       (* [millis()] in [tftDisplayGPSsats] *)
  in_light_backlight : Z (* [analogRead] in [setBackLightBrightness] *)
}.

(** The top of [loop()], up to the decoding of the GPS bytes. *)
Definition loop_prologue (i : CycleIn) : M unit :=
  modify (set_currentMillis (in_millis i)) ;;
  set <- gets rtcSet ;;
  when (negb set) (setRTCfromGPS ;; checkRTCset) ;;
  modify (set_gps (in_gps i)).

(** The wiring check of [loop()]. *)
Definition gps_wiring_check : M unit :=
  cm <- gets currentMillis ;;
  g <- gets gps ;;
  if (5000 <? cm) && (charsProcessed g <? 10) then
    Serial_println_str "No GPS detected: check wiring." ;;
    hang
  else ret tt.

Definition loop (i : CycleIn) : M unit :=
  loop_prologue i ;;
  gps_wiring_check ;;
  modify (set_utc (in_utc i)) ;;
  modify (set_local (in_local i)) ;;
  setNumberColor (in_light_color i) ;;
  tftDisplayDate (in_ms_date i) ;;
  tftDisplayTime (in_ms_time i) ;;
  secondDotDisplay2 ;;
  tftDisplayGPSsats (in_ms_sats i) ;;
  setBackLightBrightness (in_light_backlight i) ;;
  syncOnBoot ;;
  scheduledSync.

(** What [setup()] reads from outside. *)
Record BootIn : Type := mkBootIn {
  rtc_begin : bool;          (* [rtc.begin()] *)
  rtc_isrunning : bool;      (* [rtc.isrunning()] *)
  rtc_dayOfTheWeek : Z;      (* [now.dayOfTheWeek()] *)
  timeStatus_timeSet : bool  (* [timeStatus() == timeSet] *)
}.

Definition setup (b : BootIn) : M unit :=
  analogWrite_backlight 0 ;;
  (if negb (rtc_begin b) then
     Serial_println_str "Couldn't find RTC" ;; hang
   else ret tt) ;;
  when (negb (rtc_isrunning b)) (Serial_println_str "RTC is NOT running!") ;;
  checkRTCset ;;
  Serial_call Serial_newline ;;
  Serial_println_str "---RTC TIME---" ;;
  now <- rtc_now ;;
  Serial_print_str "UTC: " ;;
  Serial_call (Serial_print_num (dt_year now)) ;;
  Serial_print_str "/" ;;
  Serial_call (Serial_print_num (dt_month now)) ;;
  Serial_print_str "/" ;;
  Serial_call (Serial_print_num (dt_day now)) ;;
  Serial_print_str " (" ;;
  Serial_print_str (nth (Z.to_nat (rtc_dayOfTheWeek b)) daysOfTheWeek ""%string) ;;
  Serial_print_str ") " ;;
  Serial_call (Serial_print_num (dt_hour now)) ;;
  Serial_print_str ":" ;;
  Serial_call (Serial_print_num (dt_minute now)) ;;
  Serial_print_str ":" ;;
  Serial_call (Serial_print_num (dt_second now)) ;;
  Serial_call Serial_newline ;;
  (if negb (timeStatus_timeSet b)
   then Serial_println_str "Unable to sync with the RTC"
   else Serial_println_str "RTC has set the system time") ;;
  tft_call tft_begin ;;
  tft_call (fillScreen ILI9340_BLACK) ;;
  secondsBorder.

(** The decoder before any byte was fed to it. *)
Definition gps_fresh : TinyGPSPlus :=
  mkGps false false 0 0 0 0 0 0 0 0.

(** The world at power-on: the globals as initialised in the sketch,
    nothing sent to any device yet; [now] is what the RTC holds. *)
Definition power_on (now : DateTime) : World :=
  {| rtcSet := false; backlightVal := 50; numberColor := ILI9340_WHITE;
     colorChange := 0; photocellReading := 0; utc := 0;
     local := mkTm 0 0 0 0 0 0 0;
     previousMillis := 0; currentMillis := 0; syncTimer := 0;
     scheduledTimer := 0; newboot := true;
     gps := gps_fresh; rtc := now; rtc_adjusts := [];
     tft := []; serial := []; backlight := [] |}.

(** * Observations

    Definitions used to state the properties: what it means for a routine
    to return and to leave part of the world alone, the calls a routine
    makes, and the worlds and inputs of the examples. *)

(** A computation is total when it returns from every world. *)
Definition total {A} (m : M A) : Prop := forall w, hangs (m w) = false.

(** A computation keeps an observation [f] of the world when no run of it
    changes [f]. *)
Definition keeps {A X} (f : World -> X) (m : M A) : Prop :=
  forall w, f (world_of (m w)) = f w.

(** What [setRTCfromGPS] prints when the decoder has no valid date and
    time. *)
Definition no_fix_report : list SerialCall :=
  [Serial_println "Setting RTC from GPS"; Serial_newline;
   Serial_println "No GPS fix yet. Can't set RTC yet."].

Definition fix_report : list SerialCall :=
  [Serial_println "Setting RTC from GPS"; Serial_newline;
   Serial_println "RTC set from GPS"].

(** [setup] after its call of [checkRTCset]. *)
Definition setup_after_check (b : BootIn) : M unit :=
  Serial_call Serial_newline ;;
  Serial_println_str "---RTC TIME---" ;;
  now <- rtc_now ;;
  Serial_print_str "UTC: " ;;
  Serial_call (Serial_print_num (dt_year now)) ;;
  Serial_print_str "/" ;;
  Serial_call (Serial_print_num (dt_month now)) ;;
  Serial_print_str "/" ;;
  Serial_call (Serial_print_num (dt_day now)) ;;
  Serial_print_str " (" ;;
  Serial_print_str (nth (Z.to_nat (rtc_dayOfTheWeek b)) daysOfTheWeek ""%string) ;;
  Serial_print_str ") " ;;
  Serial_call (Serial_print_num (dt_hour now)) ;;
  Serial_print_str ":" ;;
  Serial_call (Serial_print_num (dt_minute now)) ;;
  Serial_print_str ":" ;;
  Serial_call (Serial_print_num (dt_second now)) ;;
  Serial_call Serial_newline ;;
  (if negb (timeStatus_timeSet b)
   then Serial_println_str "Unable to sync with the RTC"
   else Serial_println_str "RTC has set the system time") ;;
  tft_call tft_begin ;;
  tft_call (fillScreen ILI9340_BLACK) ;;
  secondsBorder.

(** The colour [setNumberColor] decides on: red in a dark room at night,
    white otherwise. *)
Definition color_tier (l : tm) (reading : Z) : Color :=
  if ((20 <=? tm_hour l) || (tm_hour l <? 6)) && (reading <=? 100)
  then ILI9340_RED else ILI9340_WHITE.

Definition waiting_calls (x y size : Z) (c : Color) : list TftCall :=
  [setCursor x y; setTextColor c ILI9340_BLACK; setTextSize size;
   tft_println "Waiting for GPS Fix"].

(** The calls of a redraw of the date region. *)
Definition date_calls (c : Color) (l : tm) : list TftCall :=
  let dayname := nth (Z.to_nat (tm_weekday l - 1)) daysOfTheWeek ""%string in
  let datechars :=
    6 + (if tm_month l <? 10 then 1 else 2) + (if tm_day l <? 10 then 1 else 2) in
  [setTextColor c ILI9340_BLACK; setTextSize 2;
   setCursor (odd_shift (120 - Z.quot (Z.of_nat (String.length dayname)) 2 * 10)) 10;
   tft_print dayname;
   setCursor (odd_shift (120 - Z.quot datechars 2 * 15)) 40;
   setTextColor c ILI9340_BLACK; setTextSize 3;
   tft_print_num (tm_month l); tft_print "/"; tft_print_num (tm_day l);
   tft_print "/"; tft_print_num (tm_year l)].

(** The calls of a redraw of the time region. *)
Definition time_calls (c : Color) (l : tm) : list TftCall :=
  [fillCircle 115 150 4 c; fillCircle 115 200 4 c]
  ++ draw7Number (hourFormat12 l) 0 125 5 c ILI9340_BLACK (-2)
  ++ draw7Number (tm_minute l) 130 125 5 c ILI9340_BLACK 2.

(** The calls of the seconds animation. *)
Definition secondDot_calls (sec : Z) : list TftCall :=
  (if sec =? 0
   then [drawFastVLine 236 80 4 ILI9340_BLACK; drawFastVLine 232 80 4 ILI9340_BLACK]
   else [])
  ++ [drawFastVLine (sec * 4 - 8) 80 4 ILI9340_BLACK;
      drawFastVLine (sec * 4 - 4) 80 3 ILI9340_BLACK;
      drawFastVLine (sec * 4) 80 5 ILI9340_GREEN;
      drawFastVLine (sec * 4 + 4) 83 2 ILI9340_GREEN].

(** The calls of the satellite count. *)
Definition sats_calls (sec ms sats : Z) : list TftCall :=
  if (sec =? 30) || (ms <? 2500)
  then [setCursor 90 300; setTextColor ILI9340_WHITE ILI9340_BLACK;
        setTextSize 1; tft_print "GPS Sats: "; tft_print_num sats;
        tft_print "  "]
  else [].

(** When the date region is redrawn once the clock is set. *)
Definition date_due (l : tm) (ms cc : Z) : bool :=
  ((tm_hour l =? 0) && (tm_minute l <? 5)) || (ms <? 2500) || (0 <? cc).

(** When the time region is redrawn once the clock is set. *)
Definition time_due (l : tm) (ms cc : Z) : bool :=
  (tm_second l =? 0) || (ms <? 2500) || (0 <? cc).

(** The decoder's fix is trusted at boot: date and time valid, and more
    than four satellites by the [int] copy [satcount] of the count. *)
Definition boot_fix (g : TinyGPSPlus) : bool :=
  date_isValid g && time_isValid g && (4 <? i16 (satellites_value g)).

(** [loop] after its wiring check. *)
Definition loop_after_check (i : CycleIn) : M unit :=
  modify (set_utc (in_utc i)) ;;
  modify (set_local (in_local i)) ;;
  setNumberColor (in_light_color i) ;;
  tftDisplayDate (in_ms_date i) ;;
  tftDisplayTime (in_ms_time i) ;;
  secondDotDisplay2 ;;
  tftDisplayGPSsats (in_ms_sats i) ;;
  setBackLightBrightness (in_light_backlight i) ;;
  syncOnBoot ;;
  scheduledSync.

(** The test of the wiring check: more than 5000 ms on the clock read at
    the top of the pass, and fewer than 10 characters decoded. *)
Definition no_gps_detected (i : CycleIn) : bool :=
  (5000 <? in_millis i) && (charsProcessed (in_gps i) <? 10).

(** What the display routines depend on besides the time. *)
Definition display_view (w : World) : bool * Color * Z :=
  (rtcSet w, numberColor w, colorChange w).

(** The holdoff counter after a region that is redrawn when [due]. *)
Definition after_region (due : bool) (cc : Z) : Z :=
  if due then i16 (cc - 1) else cc.

(** ** Concrete worlds and inputs used in the examples below *)

(** A DS1307 that was never set: 2000-01-01 00:00:00. *)
Definition rtc_unset : DateTime := mkDateTime 2000 1 1 0 0 0.

(** A decoder with a valid date and time and a given satellite count and
    number of decoded characters. *)
Definition gps_fix (sats chars : Z) : TinyGPSPlus :=
  mkGps true true 2024 3 11 1 15 7 sats chars.

(** Sunday 2024-03-10, 20:15:07 local time (01:15:07 UTC the next day). *)
Definition evening : tm := mkTm 7 15 20 1 10 3 2024.

(** A pass at [ms] milliseconds with decoder [g], local time [l] and light
    reading [light]. *)
Definition pass (ms : Z) (g : TinyGPSPlus) (l : tm) (light : Z) : CycleIn :=
  mkCycleIn ms g 1710119707 l light ms ms ms light.

(** A clock that is set, and the world once [setup] has run on it. *)
Definition rtc_set : DateTime := mkDateTime 2024 3 11 1 15 0.
Definition booted : World :=
  exec (setup (mkBootIn true true 1 true)) (power_on rtc_set).

(** 19:59:58, 20:00:01 and 20:00:02 local time on the same Sunday. *)
Definition t195958 : tm := mkTm 58 59 19 1 10 3 2024.
Definition t200001 : tm := mkTm 1 0 20 1 10 3 2024.
Definition t200002 : tm := mkTm 2 0 20 1 10 3 2024.

(** ** Reading the display calls *)

(** The value a glyph stands for in a decimal reading: a blank place
    counts as zero. *)
Definition glyph_value (g : Z) : Z := if g =? blank then 0 else g.

(** The number a row of glyphs shows, leftmost glyph first. *)
Definition shown (gs : list Z) : Z :=
  fold_left (fun acc g => 10 * acc + glyph_value g) gs 0.

(** The same, from a row given rightmost glyph first. *)
Fixpoint shown_lsd (gs : list Z) : Z :=
  match gs with
  | [] => 0
  | g :: r => glyph_value g + 10 * shown_lsd r
  end.

(** A call with its colour forgotten: where the line goes. *)
Definition uncolored (c : TftCall) : TftCall :=
  match c with
  | drawFastHLine x y w _ => drawFastHLine x y w ILI9340_BLACK
  | drawFastVLine x y h _ => drawFastVLine x y h ILI9340_BLACK
  | fillCircle x y r _ => fillCircle x y r ILI9340_BLACK
  | other => other
  end.

(** The calls that draw a fast line. *)
Definition is_line (c : TftCall) : bool :=
  match c with
  | drawFastHLine _ _ _ _ | drawFastVLine _ _ _ _ => true
  | _ => false
  end.

(** The colour of a drawing call. *)
Definition call_color (c : TftCall) : option Color :=
  match c with
  | drawFastHLine _ _ _ k | drawFastVLine _ _ _ k | fillCircle _ _ _ k
  | fillScreen k => Some k
  | _ => None
  end.

(** Whether the pixels of a call lie in columns [x0 .. x1 - 1] and rows
    [y0 .. y1 - 1]: a fast horizontal line covers [w] pixels to the right
    of [(x, y)], a fast vertical line [h] pixels below it, a filled circle
    the disc of radius [r] around it.  Calls that draw no shape pass. *)
Definition within (x0 x1 y0 y1 : Z) (c : TftCall) : bool :=
  match c with
  | drawFastHLine x y w _ =>
      (x0 <=? x) && (x + w <=? x1) && (y0 <=? y) && (y <? y1)
  | drawFastVLine x y h _ =>
      (x0 <=? x) && (x <? x1) && (y0 <=? y) && (y + h <=? y1)
  | fillCircle x y r _ =>
      (x0 <=? x - r) && (x + r <? x1) && (y0 <=? y - r) && (y + r <? y1)
  | _ => true
  end.

(** ** Passes in a row *)

(** The passes of [loop] the board makes one after the other, each with
    what it reads; a pass that hangs is the last one. *)
Fixpoint run (passes : list CycleIn) (w : World) : Res unit :=
  match passes with
  | [] => Ret tt w
  | i :: rest =>
      match loop i w with
      | Ret _ w' => run rest w'
      | Hang w' => Hang w'
      end
  end.

(** What the synchronisation routines read and write. *)
Definition sync_view (w : World)
  : bool * bool * TinyGPSPlus * DateTime * list DateTime * (Z * Z * Z) * tm
      * list SerialCall :=
  (rtcSet w, newboot w, gps w, rtc w, rtc_adjusts w,
   (currentMillis w, syncTimer w, scheduledTimer w), local w, serial w).

(** The decoder holds a valid date and a valid time. *)
Definition fix_valid (g : TinyGPSPlus) : bool :=
  date_isValid g && time_isValid g.

(** The window of [scheduledSync] is open: more than 60000 ms since it
    was last open. *)
Definition sched_open (timer now : Z) : bool := u32 (timer + 60000) <? now.

(** A sample was taken from a decoder that held a valid date and time. *)
Definition from_valid_fix (gs : list TinyGPSPlus) (d : DateTime) : Prop :=
  exists g, In g gs /\ fix_valid g = true /\ d = gps_DateTime g.

(** A DS1307 that was never set and has been running for a second. *)
Definition rtc_ticking : DateTime := mkDateTime 2000 1 1 0 0 1.

(** The seconds of a minute. *)
Definition seconds : list Z := map Z.of_nat (seq 0 60).

(** What [setup] sends to the display once the RTC is found. *)
Definition setup_calls : list TftCall :=
  [tft_begin; fillScreen ILI9340_BLACK;
   drawFastHLine 0 72 240 ILI9340_BLUE; drawFastHLine 0 73 240 ILI9340_BLUE;
   drawFastHLine 0 74 240 ILI9340_BLUE; drawFastHLine 0 90 240 ILI9340_BLUE;
   drawFastHLine 0 91 240 ILI9340_BLUE; drawFastHLine 0 92 240 ILI9340_BLUE].

(** * Properties *)

(** ** Machine integers and colours *)

Lemma u16_range z : 0 <= u16 z < 65536.
Proof. unfold u16. apply Z.mod_pos_bound. lia. Qed.

Lemma u16_small z : 0 <= z < 65536 -> u16 z = z.
Proof. intros H. unfold u16. apply Z.mod_small. exact H. Qed.

Lemma u8_small z : 0 <= z < 256 -> u8 z = z.
Proof. intros H. unfold u8. apply Z.mod_small. exact H. Qed.

Lemma u32_small z : 0 <= z < 4294967296 -> u32 z = z.
Proof. intros H. unfold u32. apply Z.mod_small. exact H. Qed.

Lemma i16_small z : -32768 <= z < 32768 -> i16 z = z.
Proof. intros H. unfold i16. rewrite Z.mod_small; lia. Qed.

Lemma i16_range z : -32768 <= i16 z < 32768.
Proof.
  unfold i16. pose proof (Z.mod_pos_bound (z + 32768) 65536). lia.
Qed.

Lemma abs_nonneg x : 0 <= abs x.
Proof. unfold abs. destruct (Z.ltb_spec 0 x); lia. Qed.

Lemma abs_Zabs x : abs x = Z.abs x.
Proof. unfold abs. destruct (Z.ltb_spec 0 x); lia. Qed.

Lemma Color_eqb_spec a b : reflect (a = b) (Color_eqb a b).
Proof. destruct a, b; simpl; constructor; congruence. Qed.

(** ** The monad *)

Lemma unit_run (m : M unit) w : hangs (m w) = false -> m w = Ret tt (exec m w).
Proof. unfold exec. destruct (m w) as [[] w'|w']; simpl; congruence. Qed.

Lemma exec_seq {B} (m : M unit) (k : M B) w :
  total m -> exec (m ;; k) w = exec k (exec m w).
Proof.
  intros Hm. unfold exec at 1. unfold bind.
  rewrite (unit_run m w (Hm w)). reflexivity.
Qed.

Lemma hangs_seq {B} (m : M unit) (k : M B) w :
  total m -> hangs ((m ;; k) w) = hangs (k (exec m w)).
Proof.
  intros Hm. unfold bind. rewrite (unit_run m w (Hm w)). reflexivity.
Qed.

Lemma total_ret {A} (a : A) : total (ret a).
Proof. intros w. reflexivity. Qed.

Lemma total_gets {A} (f : World -> A) : total (gets f).
Proof. intros w. reflexivity. Qed.

Lemma total_modify f : total (modify f).
Proof. intros w. reflexivity. Qed.

Lemma total_bind {A B} (m : M A) (k : A -> M B) :
  total m -> (forall a, total (k a)) -> total (bind m k).
Proof.
  intros Hm Hk w. unfold bind. specialize (Hm w).
  destruct (m w) as [a w'|w']; simpl in *; [apply Hk | discriminate].
Qed.

Lemma total_when b m : total m -> total (when b m).
Proof. destruct b; simpl; [trivial | intros _; apply total_ret]. Qed.

Lemma total_if {A} (b : bool) (m1 m2 : M A) :
  total m1 -> total m2 -> total (if b then m1 else m2).
Proof. destruct b; trivial. Qed.

Create HintDb total_db.
#[local] Hint Resolve total_ret total_gets total_modify total_when total_if : total_db.
#[local] Hint Extern 1 (total (bind _ _)) => apply total_bind; [ | intros ] : total_db.
#[local] Hint Extern 1 (total (tft_call _)) => apply total_modify : total_db.
#[local] Hint Extern 1 (total (tft_calls _)) => apply total_modify : total_db.
#[local] Hint Extern 1 (total (Serial_call _)) => apply total_modify : total_db.
#[local] Hint Extern 1 (total (Serial_println_str _)) => apply total_modify : total_db.
#[local] Hint Extern 1 (total (Serial_print_str _)) => apply total_modify : total_db.
#[local] Hint Extern 1 (total (analogWrite_backlight _)) => apply total_modify : total_db.
#[local] Hint Extern 1 (total (rtc_adjust _)) => apply total_modify : total_db.
#[local] Hint Extern 1 (total rtc_now) => apply total_gets : total_db.

Ltac totality f := unfold f; auto 40 with total_db.

Lemma keeps_exec {A X} {f : World -> X} {m : M A} :
  keeps f m -> forall w, f (exec m w) = f w.
Proof. intros H w. apply H. Qed.

Lemma keeps_ret {A X} (f : World -> X) (a : A) : keeps f (ret a).
Proof. intros w. reflexivity. Qed.

Lemma keeps_gets {A X} (f : World -> X) (g : World -> A) : keeps f (gets g).
Proof. intros w. reflexivity. Qed.

Lemma keeps_hang {A X} (f : World -> X) : keeps f (@hang A).
Proof. intros w. reflexivity. Qed.

Lemma keeps_modify {X} (f : World -> X) g :
  (forall w, f (g w) = f w) -> keeps f (modify g).
Proof. intros H w. apply H. Qed.

Lemma keeps_bind {A B X} (f : World -> X) (m : M A) (k : A -> M B) :
  keeps f m -> (forall a, keeps f (k a)) -> keeps f (bind m k).
Proof.
  intros Hm Hk w. unfold bind. specialize (Hm w).
  destruct (m w) as [a w'|w']; simpl in *; [|exact Hm].
  rewrite Hk. exact Hm.
Qed.

Lemma keeps_when {X} (f : World -> X) b m : keeps f m -> keeps f (when b m).
Proof. destruct b; simpl; [trivial | intros _; apply keeps_ret]. Qed.

Lemma keeps_if {A X} (f : World -> X) (b : bool) (m1 m2 : M A) :
  keeps f m1 -> keeps f m2 -> keeps f (if b then m1 else m2).
Proof. destruct b; trivial. Qed.

Create HintDb keeps_db.
#[local] Hint Resolve keeps_ret keeps_gets keeps_hang keeps_when keeps_if : keeps_db.
#[local] Hint Extern 1 (keeps _ (bind _ _)) => apply keeps_bind; [ | intros ] : keeps_db.
#[local] Hint Extern 1 (keeps _ rtc_now) => apply keeps_gets : keeps_db.
#[local] Hint Extern 2 (keeps _ _) =>
  apply keeps_modify; intros [? ? ? ? ? ? ? ? ? ? ? ? ? ? ? ? ? ?]; reflexivity
  : keeps_db.

(** Accessors and setters of [World] applied to a world given by its
    fields. *)
Ltac wproj :=
  cbv beta iota zeta delta
    [rtcSet backlightVal numberColor colorChange photocellReading utc local
     previousMillis currentMillis syncTimer scheduledTimer newboot
     gps rtc rtc_adjusts tft serial backlight
     set_rtcSet set_backlightVal set_numberColor set_colorChange
     set_photocellReading set_utc set_local set_currentMillis set_syncTimer
     set_scheduledTimer set_newboot set_gps set_rtc set_rtc_adjusts set_tft
     set_serial set_backlight].

(** Running a computation on a world given by its fields: only the monad,
    the device primitives and the accessors of [World] are unfolded. *)
Ltac mrun :=
  cbv beta iota zeta delta
    [exec world_of hangs bind ret gets modify hang when
     tft_call tft_calls Serial_call Serial_println_str Serial_print_str
     analogWrite_backlight rtc_now rtc_adjust
     rtcSet backlightVal numberColor colorChange photocellReading utc local
     previousMillis currentMillis syncTimer scheduledTimer newboot
     gps rtc rtc_adjusts tft serial backlight
     set_rtcSet set_backlightVal set_numberColor set_colorChange
     set_photocellReading set_utc set_local set_currentMillis set_syncTimer
     set_scheduledTimer set_newboot set_gps set_rtc set_rtc_adjusts set_tft
     set_serial set_backlight].

Lemma secondsBorder_total : total secondsBorder.
Proof. totality secondsBorder. Qed.

Lemma secondDotDisplay2_total : total secondDotDisplay2.
Proof. totality secondDotDisplay2. Qed.

Lemma setNumberColor_total r : total (setNumberColor r).
Proof. totality setNumberColor. Qed.

Lemma setBackLightBrightness_total r : total (setBackLightBrightness r).
Proof. totality setBackLightBrightness. Qed.

Lemma tftDisplayDate_total ms : total (tftDisplayDate ms).
Proof. totality tftDisplayDate. Qed.

Lemma tftDisplayTime_total ms : total (tftDisplayTime ms).
Proof. totality tftDisplayTime. Qed.

Lemma tftDisplayGPSsats_total ms : total (tftDisplayGPSsats ms).
Proof. totality tftDisplayGPSsats. Qed.

Lemma checkRTCset_total : total checkRTCset.
Proof. totality checkRTCset. Qed.

Lemma setRTCfromGPS_total : total setRTCfromGPS.
Proof. totality setRTCfromGPS. Qed.

#[local] Hint Resolve setRTCfromGPS_total checkRTCset_total : total_db.

Lemma syncOnBoot_total : total syncOnBoot.
Proof. totality syncOnBoot. Qed.

Lemma scheduledSync_total : total scheduledSync.
Proof. totality scheduledSync. Qed.

Lemma loop_prologue_total i : total (loop_prologue i).
Proof. totality loop_prologue. Qed.

(** ** Writing the RTC: [setRTCfromGPS] *)

Lemma app_one_neq {A} (l : list A) (x : A) : l ++ [x] <> l.
Proof.
  intros H. apply (f_equal (@List.length A)) in H.
  rewrite List.length_app in H. simpl in H. lia.
Qed.

Lemma setRTCfromGPS_exec w :
  exec setRTCfromGPS w =
  if date_isValid (gps w) && time_isValid (gps w)
  then set_serial (serial w ++ fix_report)
         (set_rtc_adjusts (rtc_adjusts w ++ [gps_DateTime (gps w)])
            (set_rtc (gps_DateTime (gps w)) w))
  else set_serial (serial w ++ no_fix_report) w.
Proof.
  destruct w as [? ? ? ? ? ? ? ? ? ? ? ? g ? ? ? ? ?].
  unfold exec, setRTCfromGPS, bind, gets, Serial_println_str, Serial_call,
    rtc_adjust, modify. simpl.
  destruct (date_isValid g && time_isValid g); simpl;
    rewrite <- !app_assoc; reflexivity.
Qed.

(** C2.  Every call of [setRTCfromGPS] returns, and it writes the RTC if
    and only if the decoder's date and time are both valid at that
    moment: then the RTC receives the decoder's date and time; otherwise
    nothing is written and the world is the one before the call but for
    three lines on the serial port. *)
Theorem setRTCfromGPS_writes_iff_valid (w : World) :
  let valid := date_isValid (gps w) && time_isValid (gps w) in
  let w' := exec setRTCfromGPS w in
  hangs (setRTCfromGPS w) = false /\
  (rtc_adjusts w' <> rtc_adjusts w <-> valid = true) /\
  rtc_adjusts w' =
    (if valid then rtc_adjusts w ++ [gps_DateTime (gps w)] else rtc_adjusts w) /\
  rtc w' = (if valid then gps_DateTime (gps w) else rtc w) /\
  (valid = false -> w' = set_serial (serial w ++ no_fix_report) w).
Proof.
  cbv zeta. rewrite setRTCfromGPS_exec.
  split; [apply setRTCfromGPS_total|].
  destruct w as [? ? ? ? ? ? ? ? ? ? ? ? g ? adj ? ? ?]. simpl.
  destruct (date_isValid g && time_isValid g); simpl.
  - repeat split; auto using app_one_neq. discriminate.
  - repeat split; auto; congruence.
Qed.

(** ** Backlight: [setBackLightBrightness] *)

Lemma setBackLightBrightness_exec r w :
  exec (setBackLightBrightness r) w =
  let v := if r <? 20 then 5 else if r <=? 50 then 20
           else if r <=? 100 then 50 else 255 in
  set_backlight (backlight w ++ [v])
    (set_backlightVal v (set_photocellReading r w)).
Proof.
  destruct w. unfold exec, setBackLightBrightness, bind, gets, when,
    analogWrite_backlight, modify, ret. simpl.
  destruct (Z.ltb_spec r 20), (Z.leb_spec r 50), (Z.leb_spec r 100),
    (Z.ltb_spec 100 r); simpl; try reflexivity; lia.
Qed.

(** C8.  For every reading [r], the four overwriting tests of
    [setBackLightBrightness] leave (and send to the backlight pin) 255
    when [r > 100], 50 when [50 < r <= 100], 20 when [20 <= r <= 50] and
    5 when [r < 20]; readings 5, 30, 60, 150 give 5, 20, 50, 255 and the
    boundary readings 20, 50, 100 give 20, 20, 50. *)
Theorem setBackLightBrightness_staircase (r : Z) (w : World) :
  let level := fun r => backlightVal (exec (setBackLightBrightness r) w) in
  backlight (exec (setBackLightBrightness r) w) = backlight w ++ [level r] /\
  (100 < r -> level r = 255) /\
  (50 < r <= 100 -> level r = 50) /\
  (20 <= r <= 50 -> level r = 20) /\
  (r < 20 -> level r = 5) /\
  map level [5; 30; 60; 150] = [5; 20; 50; 255] /\
  map level [20; 50; 100] = [20; 20; 50].
Proof.
  assert (L : forall r0, backlightVal (exec (setBackLightBrightness r0) w) =
                         if r0 <? 20 then 5 else if r0 <=? 50 then 20
                         else if r0 <=? 100 then 50 else 255)
    by (intros r0; rewrite setBackLightBrightness_exec; destruct w; reflexivity).
  cbv zeta. split.
  - rewrite setBackLightBrightness_exec. destruct w. reflexivity.
  - rewrite L.
    destruct (Z.ltb_spec r 20), (Z.leb_spec r 50), (Z.leb_spec r 100);
      repeat split; intros; try lia; simpl; rewrite ?L; reflexivity.
Qed.

(** ** Boot validation: [checkRTCset] *)

Lemma checkRTCset_exec w :
  exec checkRTCset w =
  if rtc_default (rtc w)
  then set_serial (serial w ++ [Serial_println "*** RTC TIME NOT SET. ***";
                                Serial_newline]) w
  else set_serial (serial w ++ [Serial_println "RTC TIME SET."; Serial_newline])
         (set_rtcSet true w).
Proof.
  destruct w as [? ? ? ? ? ? ? ? ? ? ? ? ? now ? ? ? ?].
  unfold exec, checkRTCset, bind, rtc_now, gets, Serial_println_str,
    Serial_call, modify. simpl.
  destruct (rtc_default now); simpl; rewrite <- !app_assoc; reflexivity.
Qed.

Lemma checkRTCset_rtcSet w :
  rtcSet (exec checkRTCset w) = rtcSet w || negb (rtc_default (rtc w)).
Proof.
  rewrite checkRTCset_exec. destruct w as [s ? ? ? ? ? ? ? ? ? ? ? ? now ? ? ? ?].
  simpl. destruct (rtc_default now), s; reflexivity.
Qed.

Lemma rtc_default_iff now :
  rtc_default now = true <->
  dt_hour now = 0 /\ dt_minute now = 0 /\ dt_second now = 0 /\ dt_year now < 2010.
Proof.
  unfold rtc_default. rewrite !andb_true_iff, !Z.eqb_eq, Z.ltb_lt. tauto.
Qed.

Lemma setup_after_check_total b : total (setup_after_check b).
Proof. unfold setup_after_check, secondsBorder. auto 60 with total_db. Qed.

Lemma setup_after_check_rtcSet b : keeps rtcSet (setup_after_check b).
Proof.
  unfold setup_after_check, secondsBorder, Serial_println_str, Serial_print_str,
    Serial_call, tft_call.
  auto 80 with keeps_db.
Qed.

(** [setup] when the RTC is found. *)
Lemma setup_found b w :
  rtc_begin b = true ->
  setup b w =
  (analogWrite_backlight 0 ;;
   when (negb (rtc_isrunning b)) (Serial_println_str "RTC is NOT running!") ;;
   checkRTCset ;;
   setup_after_check b) w.
Proof. intros H. unfold setup, bind. rewrite H. reflexivity. Qed.

Lemma setup_not_found b w :
  rtc_begin b = false -> hangs (setup b w) = true.
Proof. intros H. unfold setup, bind. rewrite H. reflexivity. Qed.

Lemma setup_rtcSet b w :
  rtc_begin b = true ->
  hangs (setup b w) = false /\
  rtcSet (exec (setup b) w) = rtcSet w || negb (rtc_default (rtc w)).
Proof.
  intros H. unfold exec. rewrite setup_found by exact H.
  pose proof (setup_after_check_total b) as Ht.
  split.
  - revert w. change (total (analogWrite_backlight 0 ;;
      when (negb (rtc_isrunning b)) (Serial_println_str "RTC is NOT running!") ;;
      checkRTCset ;; setup_after_check b)).
    auto 20 with total_db.
  - fold (exec (analogWrite_backlight 0 ;;
      when (negb (rtc_isrunning b)) (Serial_println_str "RTC is NOT running!") ;;
      checkRTCset ;; setup_after_check b) w).
    rewrite !exec_seq by auto 20 with total_db.
    unfold exec at 1. rewrite setup_after_check_rtcSet.
    rewrite checkRTCset_rtcSet.
    destruct w as [? ? ? ? ? ? ? ? ? ? ? ? ? ? ? ? ? ?].
    destruct (rtc_isrunning b); reflexivity.
Qed.

(** C9.  [setup] hangs exactly when the RTC is not found; otherwise the
    RTC sample [now] read by its call of [checkRTCset] leaves [rtcSet]
    false (Unsynced) exactly when hour, minute and second are 0 and the
    year is below 2010, and true (Synced) for every other sample. *)
Theorem boot_validation (now : DateTime) (b : BootIn) :
  match setup b (power_on now) with
  | Ret _ w =>
      rtc_begin b = true /\
      (rtcSet w = false <->
       dt_hour now = 0 /\ dt_minute now = 0 /\ dt_second now = 0 /\
       dt_year now < 2010) /\
      (rtcSet w = true <->
       ~ (dt_hour now = 0 /\ dt_minute now = 0 /\ dt_second now = 0 /\
          dt_year now < 2010))
  | Hang _ => rtc_begin b = false
  end.
Proof.
  pose proof (rtc_default_iff now) as Hd.
  destruct (rtc_begin b) eqn:Hb.
  - destruct (setup_rtcSet b (power_on now) Hb) as [Hh Hs].
    unfold exec in Hs.
    destruct (setup b (power_on now)) as [[] w|w]; [|discriminate].
    simpl in Hs. split; [reflexivity|].
    rewrite Hs. destruct (rtc_default now); simpl; intuition congruence.
  - pose proof (setup_not_found b (power_on now) Hb) as Hh.
    destruct (setup b (power_on now)); [discriminate | reflexivity].
Qed.

(** ** What each display routine sends to the display *)

Lemma setNumberColor_exec r w :
  exec (setNumberColor r) w =
  let t := color_tier (local w) r in
  if Color_eqb (numberColor w) t then set_photocellReading r w
  else set_colorChange 2 (set_numberColor t (set_photocellReading r w)).
Proof.
  destruct w as [? ? c ? ? ? l ? ? ? ? ? ? ? ? ? ? ?].
  unfold exec, setNumberColor, color_tier, bind, gets, when, modify, ret. simpl.
  destruct (((20 <=? tm_hour l) || (tm_hour l <? 6)) && (r <=? 100));
    destruct c; reflexivity.
Qed.

Lemma tftDisplayDate_exec ms w :
  exec (tftDisplayDate ms) w =
  if negb (rtcSet w)
  then set_tft (tft w ++ waiting_calls 65 50 1 (numberColor w)) w
  else if date_due (local w) ms (colorChange w)
       then set_colorChange (i16 (colorChange w - 1))
              (set_tft (tft w ++ date_calls (numberColor w) (local w)) w)
       else w.
Proof.
  destruct w as [set ? c cc ? ? l ? ? ? ? ? ? ? ? ? ? ?].
  unfold tftDisplayDate, date_due, date_calls, waiting_calls.
  destruct set; mrun; cbv [negb]; [|rewrite <- !app_assoc; reflexivity].
  destruct (((tm_hour l =? 0) && (tm_minute l <? 5)) || (ms <? 2500) || (0 <? cc));
    [|reflexivity].
  rewrite <- !app_assoc.
  destruct (tm_month l <? 10), (tm_day l <? 10); reflexivity.
Qed.

Lemma tftDisplayTime_exec ms w :
  exec (tftDisplayTime ms) w =
  if negb (rtcSet w)
  then set_tft (tft w ++ waiting_calls 30 150 2 (numberColor w)) w
  else if time_due (local w) ms (colorChange w)
       then set_colorChange (i16 (colorChange w - 1))
              (set_tft (tft w ++ time_calls (numberColor w) (local w)) w)
       else w.
Proof.
  destruct w as [set ? c cc ? ? l ? ? ? ? ? ? ? ? ? ? ?].
  unfold tftDisplayTime, time_due, time_calls, waiting_calls.
  destruct set; mrun; cbv [negb]; [|rewrite <- !app_assoc; reflexivity].
  destruct ((tm_second l =? 0) || (ms <? 2500) || (0 <? cc)); [|reflexivity].
  rewrite <- !app_assoc. reflexivity.
Qed.

Lemma secondDotDisplay2_exec w :
  exec secondDotDisplay2 w =
  set_tft (tft w ++ secondDot_calls (tm_second (local w))) w.
Proof.
  destruct w as [? ? ? ? ? ? l ? ? ? ? ? ? ? ? ? ? ?].
  unfold exec, secondDotDisplay2, secondDot_calls, bind, gets, when, tft_call,
    modify, ret. simpl.
  destruct (tm_second l =? 0); simpl; rewrite <- !app_assoc; reflexivity.
Qed.

Lemma tftDisplayGPSsats_exec ms w :
  exec (tftDisplayGPSsats ms) w =
  set_tft (tft w ++ sats_calls (tm_second (local w)) ms (satellites_value (gps w))) w.
Proof.
  destruct w as [? ? ? ? ? ? l ? ? ? ? ? g ? ? ? ? ?].
  unfold exec, tftDisplayGPSsats, sats_calls, bind, gets, when, tft_call,
    modify, ret. simpl.
  destruct ((tm_second l =? 30) || (ms <? 2500)); simpl;
    [rewrite <- !app_assoc | rewrite app_nil_r]; reflexivity.
Qed.

(** ** The synchronisation routines *)

Lemma syncOnBoot_exec w :
  exec syncOnBoot w =
  let g := gps w in
  let satcount := i16 (satellites_value g) in
  if negb (newboot w) then w
  else if boot_fix g then
    set_syncTimer 0
      (set_newboot false
         (set_serial
            (serial w ++
             [Serial_print "New boot. Need to update RTC with GPS time. Sat count: ";
              Serial_println_num satcount] ++ fix_report)
            (set_rtc_adjusts (rtc_adjusts w ++ [gps_DateTime g])
               (set_rtc (gps_DateTime g) w))))
  else if u32 (syncTimer w + 250) <? currentMillis w then
    set_syncTimer (currentMillis w)
      (set_serial
         (serial w ++
          [Serial_print "GPS not ready yet. Waiting for fix. Sat count: ";
           Serial_println_num satcount]) w)
  else w.
Proof.
  destruct w as [? ? ? ? ? ? ? ? cm st ? nb g ? ? ? ? ?].
  unfold exec, syncOnBoot, setRTCfromGPS, boot_fix, bind, gets, when,
    Serial_println_str, Serial_print_str, Serial_call, rtc_adjust, modify, ret.
  simpl. destruct nb; simpl; [|reflexivity].
  destruct (date_isValid g && time_isValid g) eqn:Hv; simpl.
  - destruct (4 <? i16 (satellites_value g)); simpl.
    + rewrite Hv. simpl. rewrite <- !app_assoc. reflexivity.
    + destruct (u32 (st + 250) <? cm); simpl;
        [rewrite <- !app_assoc|]; reflexivity.
  - destruct (u32 (st + 250) <? cm); simpl;
      [rewrite <- !app_assoc|]; reflexivity.
Qed.

Lemma scheduledSync_exec w :
  exec scheduledSync w =
  if u32 (scheduledTimer w + 60000) <? currentMillis w then
    set_scheduledTimer (currentMillis w)
      (if tm_minute (local w) =? 21
       then exec setRTCfromGPS
              (set_serial
                 (serial w ++ [Serial_println "Scheduled RTC sync from GPS Time"]) w)
       else w)
  else w.
Proof.
  destruct w as [? ? ? ? ? ? l ? cm ? st ? g ? ? ? ? ?].
  unfold exec, scheduledSync, setRTCfromGPS, bind, gets, rtc_now, when,
    Serial_println_str, Serial_call, rtc_adjust, modify, ret. simpl.
  destruct (u32 (st + 60000) <? cm); simpl; [|reflexivity].
  destruct (tm_minute l =? 21); simpl; [|reflexivity].
  destruct (date_isValid g && time_isValid g); reflexivity.
Qed.

Lemma loop_prologue_exec i w :
  exec (loop_prologue i) w =
  set_gps (in_gps i)
    (if rtcSet w then set_currentMillis (in_millis i) w
     else exec checkRTCset (exec setRTCfromGPS (set_currentMillis (in_millis i) w))).
Proof.
  unfold loop_prologue.
  rewrite exec_seq by auto with total_db.
  assert (E : forall w0,
    exec (set <- gets rtcSet ;; when (negb set) (setRTCfromGPS ;; checkRTCset) ;;
          modify (set_gps (in_gps i))) w0 =
    set_gps (in_gps i)
      (if rtcSet w0 then w0 else exec checkRTCset (exec setRTCfromGPS w0))).
  { intros w0. unfold exec at 1. unfold bind at 1. unfold gets at 1.
    destruct (rtcSet w0); simpl when.
    - reflexivity.
    - change (exec ((setRTCfromGPS ;; checkRTCset) ;; modify (set_gps (in_gps i))) w0 =
              set_gps (in_gps i) (exec checkRTCset (exec setRTCfromGPS w0))).
      rewrite exec_seq by auto with total_db.
      rewrite exec_seq by auto with total_db. reflexivity. }
  rewrite E. destruct w; reflexivity.
Qed.

(** ** One pass of [loop] *)

Lemma loop_unfold i :
  loop i = (loop_prologue i ;; gps_wiring_check ;; loop_after_check i).
Proof. reflexivity. Qed.

#[local] Hint Resolve setNumberColor_total tftDisplayDate_total
  tftDisplayTime_total secondDotDisplay2_total tftDisplayGPSsats_total
  setBackLightBrightness_total syncOnBoot_total scheduledSync_total
  loop_prologue_total : total_db.

Lemma loop_after_check_total i : total (loop_after_check i).
Proof. totality loop_after_check. Qed.

Lemma prologue_currentMillis i w :
  currentMillis (exec (loop_prologue i) w) = in_millis i.
Proof.
  rewrite loop_prologue_exec, checkRTCset_exec, setRTCfromGPS_exec.
  destruct w as [set ? ? ? ? ? ? ? ? ? ? ? g now ? ? ? ?]. simpl.
  destruct set; simpl; [reflexivity|].
  destruct (date_isValid g && time_isValid g); simpl;
    match goal with |- context [rtc_default ?d] => destruct (rtc_default d) end;
    reflexivity.
Qed.

Lemma prologue_gps i w : gps (exec (loop_prologue i) w) = in_gps i.
Proof.
  rewrite loop_prologue_exec.
  destruct (if rtcSet w then _ else _); reflexivity.
Qed.

Lemma gps_wiring_check_run w :
  gps_wiring_check w =
  if (5000 <? currentMillis w) && (charsProcessed (gps w) <? 10)
  then Hang (set_serial (serial w ++ [Serial_println "No GPS detected: check wiring."]) w)
  else Ret tt w.
Proof.
  unfold gps_wiring_check, bind, gets, hang, ret, Serial_println_str,
    Serial_call, modify.
  destruct ((5000 <? currentMillis w) && (charsProcessed (gps w) <? 10));
    reflexivity.
Qed.

Lemma loop_hangs i w : hangs (loop i w) = no_gps_detected i.
Proof.
  rewrite loop_unfold, hangs_seq by auto with total_db.
  unfold bind at 1. rewrite gps_wiring_check_run.
  rewrite prologue_currentMillis, prologue_gps. fold (no_gps_detected i).
  destruct (no_gps_detected i); [reflexivity|].
  apply loop_after_check_total.
Qed.

(** The world after a pass that gets beyond the wiring check. *)
Lemma loop_exec i w :
  no_gps_detected i = false ->
  exec (loop i) w = exec (loop_after_check i) (exec (loop_prologue i) w).
Proof.
  intros H. rewrite loop_unfold, exec_seq by auto with total_db.
  unfold exec at 1. unfold bind at 1. rewrite gps_wiring_check_run.
  rewrite prologue_currentMillis, prologue_gps. fold (no_gps_detected i).
  rewrite H. reflexivity.
Qed.

(** The world a hanging pass is left in: only the prologue and the
    report on the serial port have happened. *)
Lemma loop_exec_hang i w :
  no_gps_detected i = true ->
  exec (loop i) w =
  let w1 := exec (loop_prologue i) w in
  set_serial (serial w1 ++ [Serial_println "No GPS detected: check wiring."]) w1.
Proof.
  intros H. rewrite loop_unfold, exec_seq by auto with total_db.
  unfold exec at 1. unfold bind at 1. rewrite gps_wiring_check_run.
  rewrite prologue_currentMillis, prologue_gps. fold (no_gps_detected i).
  rewrite H. reflexivity.
Qed.

(** Routines that send nothing to the display. *)
Lemma setNumberColor_tft r w : tft (exec (setNumberColor r) w) = tft w.
Proof.
  rewrite setNumberColor_exec. destruct w; simpl.
  match goal with |- context [if ?b then _ else _] => destruct b end; reflexivity.
Qed.

Lemma setBackLightBrightness_tft r w :
  tft (exec (setBackLightBrightness r) w) = tft w.
Proof. rewrite setBackLightBrightness_exec. destruct w; reflexivity. Qed.

Lemma setRTCfromGPS_tft w : tft (exec setRTCfromGPS w) = tft w.
Proof.
  rewrite setRTCfromGPS_exec. destruct w; simpl.
  match goal with |- context [if ?b then _ else _] => destruct b end; reflexivity.
Qed.

Lemma checkRTCset_tft w : tft (exec checkRTCset w) = tft w.
Proof.
  rewrite checkRTCset_exec. destruct w; simpl.
  match goal with |- context [if ?b then _ else _] => destruct b end; reflexivity.
Qed.

Lemma syncOnBoot_tft w : tft (exec syncOnBoot w) = tft w.
Proof.
  rewrite syncOnBoot_exec. destruct w; simpl.
  repeat match goal with |- context [if ?b then _ else _] => destruct b end;
    reflexivity.
Qed.

Lemma scheduledSync_tft w : tft (exec scheduledSync w) = tft w.
Proof.
  rewrite scheduledSync_exec.
  destruct (u32 (scheduledTimer w + 60000) <? currentMillis w); [|reflexivity].
  destruct (tm_minute (local w) =? 21).
  - transitivity (tft (exec setRTCfromGPS
      (set_serial (serial w ++ [Serial_println "Scheduled RTC sync from GPS Time"]) w))).
    + destruct (exec setRTCfromGPS _); reflexivity.
    + rewrite setRTCfromGPS_tft. destruct w; reflexivity.
  - destruct w; reflexivity.
Qed.

Lemma loop_prologue_tft i w : tft (exec (loop_prologue i) w) = tft w.
Proof.
  rewrite loop_prologue_exec.
  transitivity (tft (if rtcSet w then set_currentMillis (in_millis i) w
     else exec checkRTCset (exec setRTCfromGPS (set_currentMillis (in_millis i) w)))).
  - destruct (if rtcSet w then _ else _); reflexivity.
  - destruct (rtcSet w).
    + destruct w; reflexivity.
    + rewrite checkRTCset_tft, setRTCfromGPS_tft. destruct w; reflexivity.
Qed.

(** ** The wiring check *)

(** C7 (counterexample).  Five characters were decoded when the pass at
    6000 ms starts, and that pass hangs. *)
Lemma loop_hangs_with_decoded_bytes :
  charsProcessed (in_gps (pass 6000 (gps_fix 0 5) evening 40)) = 5 /\
  hangs (loop (pass 6000 (gps_fix 0 5) evening 40) (power_on rtc_unset)) = true.
Proof. split; [reflexivity | rewrite loop_hangs; reflexivity]. Qed.

(** C7 (amended).  A pass of [loop] hangs for good exactly when the clock
    read at its top is above 5000 ms and fewer than 10 characters have
    been decoded from the receiver; with 10 or more characters decoded
    the pass runs to its end. *)
Theorem loop_hangs_iff_no_gps_detected (i : CycleIn) (w : World) :
  (hangs (loop i w) = true <->
   5000 < in_millis i /\ charsProcessed (in_gps i) < 10) /\
  (hangs (loop i w) = false <->
   in_millis i <= 5000 \/ 10 <= charsProcessed (in_gps i)).
Proof.
  rewrite loop_hangs. unfold no_gps_detected.
  destruct (Z.ltb_spec 5000 (in_millis i)),
    (Z.ltb_spec (charsProcessed (in_gps i)) 10); simpl; split; split;
    intros; try congruence; try lia.
Qed.

(** ** The display while the clock is not set *)

Lemma exec_modify f w : exec (modify f) w = f w.
Proof. reflexivity. Qed.

Lemma loop_after_check_exec i w :
  exec (loop_after_check i) w =
  exec scheduledSync
    (exec syncOnBoot
       (exec (setBackLightBrightness (in_light_backlight i))
          (exec (tftDisplayGPSsats (in_ms_sats i))
             (exec secondDotDisplay2
                (exec (tftDisplayTime (in_ms_time i))
                   (exec (tftDisplayDate (in_ms_date i))
                      (exec (setNumberColor (in_light_color i))
                         (set_local (in_local i) (set_utc (in_utc i) w)))))))))  .
Proof.
  unfold loop_after_check.
  rewrite !exec_seq by auto 20 with total_db. reflexivity.
Qed.

Lemma Color_eqb_eq a b : Color_eqb a b = true -> a = b.
Proof. destruct (Color_eqb_spec a b); congruence. Qed.

Lemma setNumberColor_fields r w :
  let w' := exec (setNumberColor r) w in
  numberColor w' = color_tier (local w) r /\
  colorChange w' =
    (if Color_eqb (numberColor w) (color_tier (local w) r)
     then colorChange w else 2) /\
  rtcSet w' = rtcSet w /\ local w' = local w /\ gps w' = gps w /\
  tft w' = tft w.
Proof.
  cbv zeta. rewrite setNumberColor_exec. cbv zeta.
  destruct (Color_eqb (numberColor w) (color_tier (local w) r)) eqn:Hc.
  - apply Color_eqb_eq in Hc. destruct w; repeat split; exact Hc.
  - destruct w; repeat split.
Qed.

(** The display routines on a world in which the clock is not set. *)
Lemma unsynced_display ms1 ms2 ms3 w :
  rtcSet w = false ->
  tft (exec (tftDisplayGPSsats ms3)
         (exec secondDotDisplay2
            (exec (tftDisplayTime ms2) (exec (tftDisplayDate ms1) w)))) =
  tft w ++ waiting_calls 65 50 1 (numberColor w) ++
  waiting_calls 30 150 2 (numberColor w) ++
  secondDot_calls (tm_second (local w)) ++
  sats_calls (tm_second (local w)) ms3 (satellites_value (gps w)).
Proof.
  intros H. rewrite tftDisplayGPSsats_exec, secondDotDisplay2_exec,
    tftDisplayTime_exec, tftDisplayDate_exec.
  destruct w as [set0 ? c0 ? ? ? l0 ? ? ? ? ? g0 ? ? t0 ? ?].
  cbv [rtcSet] in H. subst set0. wproj. cbv [negb]. wproj.
  rewrite <- !app_assoc. reflexivity.
Qed.



(** ** Boot acquisition *)

(** C3 (counterexample).  From power-on with an unset RTC, a first pass
    decodes a valid date and time with three satellites; it writes
    nothing.  The second pass, still with three satellites and with the
    first-boot flag still set, writes the RTC from the decoder in its
    prologue. *)
Lemma boot_write_with_three_satellites :
  let w1 := exec (loop (pass 1000 (gps_fix 3 500) evening 40)) (power_on rtc_unset) in
  let w2 := exec (loop (pass 2000 (gps_fix 3 900) evening 40)) w1 in
  rtc_adjusts w1 = [] /\ rtcSet w1 = false /\ newboot w1 = true /\
  satellites_value (gps w1) = 3 /\ satellites_value (gps w2) = 3 /\
  rtc_adjusts w2 = [gps_DateTime (gps_fix 3 500)] /\
  newboot w2 = true /\ rtcSet w2 = true.
Proof. vm_compute. repeat split. Qed.

Lemma loop_prologue_fields i w :
  let valid := date_isValid (gps w) && time_isValid (gps w) in
  let w' := exec (loop_prologue i) w in
  rtc_adjusts w' =
    (if negb (rtcSet w) && valid
     then rtc_adjusts w ++ [gps_DateTime (gps w)] else rtc_adjusts w) /\
  rtc w' = (if negb (rtcSet w) && valid then gps_DateTime (gps w) else rtc w) /\
  rtcSet w' = rtcSet w || negb (rtc_default (rtc w')) /\
  newboot w' = newboot w.
Proof.
  cbv zeta. rewrite loop_prologue_exec, checkRTCset_exec, setRTCfromGPS_exec.
  destruct w as [set ? ? ? ? ? ? ? ? ? ? ? g now ? ? ? ?]. wproj.
  destruct set; cbn [negb andb orb]; wproj; [auto|].
  destruct (date_isValid g && time_isValid g); wproj.
  - destruct (rtc_default (gps_DateTime g)) eqn:E; wproj; rewrite ?E; auto.
  - destruct (rtc_default now) eqn:E; wproj; rewrite ?E; auto.
Qed.

(** C3 (amended).  While the first-boot flag is set, [syncOnBoot] writes
    the RTC from the decoder exactly when date and time are valid and
    [satcount], the [int] copy of the satellite count, is above 4; it then
    clears the flag, and it never changes [rtcSet]; with [satcount] 4 or
    less it writes nothing and leaves the flag set.  Apart from that,
    while [rtcSet] is false the prologue of every pass writes the RTC
    whenever date and time are valid, whatever the satellite count, and
    sets [rtcSet] exactly when the RTC then holds a sample other than the
    default one. *)
Theorem boot_acquisition_writes (i : CycleIn) (w : World) :
  newboot w = true ->
  let g := gps w in
  let valid := date_isValid g && time_isValid g in
  let trusted := valid && (4 <? i16 (satellites_value g)) in
  (rtc_adjusts (exec syncOnBoot w) =
     (if trusted then rtc_adjusts w ++ [gps_DateTime g] else rtc_adjusts w) /\
   rtc (exec syncOnBoot w) = (if trusted then gps_DateTime g else rtc w) /\
   newboot (exec syncOnBoot w) = negb trusted /\
   rtcSet (exec syncOnBoot w) = rtcSet w /\
   (i16 (satellites_value g) <= 4 ->
    rtc_adjusts (exec syncOnBoot w) = rtc_adjusts w /\
    newboot (exec syncOnBoot w) = true)) /\
  (rtcSet w = false ->
   rtc_adjusts (exec (loop_prologue i) w) =
     (if valid then rtc_adjusts w ++ [gps_DateTime g] else rtc_adjusts w) /\
   rtcSet (exec (loop_prologue i) w) =
     negb (rtc_default (if valid then gps_DateTime g else rtc w)) /\
   newboot (exec (loop_prologue i) w) = true).
Proof.
  intros Hnb. cbv zeta. split.
  - rewrite syncOnBoot_exec. cbv zeta. unfold boot_fix.
    destruct w as [set ? ? ? ? ? ? ? cm st ? nb g now ? ? ? ?].
    cbv [newboot] in Hnb. subst nb. wproj. cbv [negb].
    destruct (date_isValid g && time_isValid g); cbn [andb].
    + destruct (Z.ltb_spec 4 (i16 (satellites_value g))); wproj.
      * repeat split; auto. lia. lia.
      * destruct (u32 (st + 250) <? cm); wproj; repeat split; auto.
    + destruct (u32 (st + 250) <? cm); wproj; repeat split; auto.
  - intros Hs. destruct (loop_prologue_fields i w) as (Ha & Hr & Hset & Hn).
    rewrite Ha, Hset, Hr, Hn, Hs, Hnb. cbn [negb andb orb].
    repeat split; auto.
Qed.

(** C3 (witness): the world after a first pass without a fix. *)
Lemma boot_acquisition_writes_witness :
  newboot (exec (loop (pass 1000 (gps_fix 3 500) evening 40)) (power_on rtc_unset)) = true /\
  rtc_adjusts
    (exec (loop_prologue (pass 2000 (gps_fix 3 900) evening 40))
       (exec (loop (pass 1000 (gps_fix 3 500) evening 40)) (power_on rtc_unset))) =
  [gps_DateTime (gps_fix 3 500)].
Proof.
  split; [vm_compute; reflexivity|].
  destruct (boot_acquisition_writes (pass 2000 (gps_fix 3 900) evening 40)
              (exec (loop (pass 1000 (gps_fix 3 500) evening 40)) (power_on rtc_unset)))
    as [_ H]; [vm_compute; reflexivity|].
  destruct H as [H _]; [vm_compute; reflexivity|].
  rewrite H. vm_compute. reflexivity.
Defined.

(** ** Colour changes and the redraw holdoff *)

Lemma secondDotDisplay2_view : keeps display_view secondDotDisplay2.
Proof. unfold secondDotDisplay2, tft_call. auto 40 with keeps_db. Qed.

Lemma tftDisplayGPSsats_view ms : keeps display_view (tftDisplayGPSsats ms).
Proof. unfold tftDisplayGPSsats, tft_call. auto 40 with keeps_db. Qed.

Lemma setBackLightBrightness_view r : keeps display_view (setBackLightBrightness r).
Proof.
  unfold setBackLightBrightness, analogWrite_backlight. auto 40 with keeps_db.
Qed.

Lemma setRTCfromGPS_view : keeps display_view setRTCfromGPS.
Proof.
  unfold setRTCfromGPS, Serial_println_str, Serial_call, rtc_adjust.
  auto 40 with keeps_db.
Qed.

#[local] Hint Resolve setRTCfromGPS_view : keeps_db.

Lemma syncOnBoot_view : keeps display_view syncOnBoot.
Proof.
  unfold syncOnBoot, Serial_println_str, Serial_print_str, Serial_call.
  auto 40 with keeps_db.
Qed.

Lemma scheduledSync_view : keeps display_view scheduledSync.
Proof.
  unfold scheduledSync, Serial_println_str, Serial_call.
  auto 40 with keeps_db.
Qed.

(** The display routines on a world in which the clock is set. *)
Lemma synced_display r ms1 ms2 ms3 w :
  rtcSet w = true ->
  let t := color_tier (local w) r in
  let cc1 := if Color_eqb (numberColor w) t then colorChange w else 2 in
  let dd := date_due (local w) ms1 cc1 in
  let cc2 := after_region dd cc1 in
  let td := time_due (local w) ms2 cc2 in
  let w' := exec (tftDisplayGPSsats ms3)
              (exec secondDotDisplay2
                 (exec (tftDisplayTime ms2)
                    (exec (tftDisplayDate ms1) (exec (setNumberColor r) w)))) in
  tft w' = tft w ++ (if dd then date_calls t (local w) else []) ++
           (if td then time_calls t (local w) else []) ++
           secondDot_calls (tm_second (local w)) ++
           sats_calls (tm_second (local w)) ms3 (satellites_value (gps w)) /\
  display_view w' = (true, t, after_region td cc2).
Proof.
  intros Hs. cbv zeta.
  assert (E : forall w0, rtcSet w0 = true ->
    let dd := date_due (local w0) ms1 (colorChange w0) in
    let cc2 := after_region dd (colorChange w0) in
    let td := time_due (local w0) ms2 cc2 in
    let w' := exec (tftDisplayGPSsats ms3)
                (exec secondDotDisplay2
                   (exec (tftDisplayTime ms2) (exec (tftDisplayDate ms1) w0))) in
    tft w' = tft w0 ++ (if dd then date_calls (numberColor w0) (local w0) else []) ++
             (if td then time_calls (numberColor w0) (local w0) else []) ++
             secondDot_calls (tm_second (local w0)) ++
             sats_calls (tm_second (local w0)) ms3 (satellites_value (gps w0)) /\
    display_view w' = (true, numberColor w0, after_region td cc2)).
  { intros [set0 ? c0 cc ? ? l0 ? ? ? ? ? g0 ? ? t0 ? ?] H0.
    cbv [rtcSet] in H0. subst set0. cbv zeta.
    rewrite tftDisplayDate_exec. wproj. cbv [negb].
    destruct (date_due l0 ms1 cc); cbv [after_region]; wproj;
      rewrite tftDisplayTime_exec; wproj; cbv [negb];
      match goal with |- context [time_due ?a ?b ?c] =>
        destruct (time_due a b c) end;
      rewrite secondDotDisplay2_exec; wproj;
      rewrite tftDisplayGPSsats_exec; cbv [display_view]; wproj;
      rewrite <- ?app_assoc; split; reflexivity. }
  destruct (setNumberColor_fields r w) as (Hc & Hcc & Hs' & Hl & Hg & Ht).
  cbv zeta in Hc, Hcc, Hs', Hl, Hg, Ht.
  specialize (E (exec (setNumberColor r) w)). cbv zeta in E.
  rewrite Hc, Hcc, Hs', Hl, Hg, Ht in E. apply E. exact Hs.
Qed.

(** A whole pass on a world in which the clock is set. *)
Lemma synced_pass i w :
  rtcSet w = true ->
  no_gps_detected i = false ->
  let t := color_tier (in_local i) (in_light_color i) in
  let cc1 := if Color_eqb (numberColor w) t then colorChange w else 2 in
  let dd := date_due (in_local i) (in_ms_date i) cc1 in
  let cc2 := after_region dd cc1 in
  let td := time_due (in_local i) (in_ms_time i) cc2 in
  tft (exec (loop i) w) =
    tft w ++ (if dd then date_calls t (in_local i) else []) ++
    (if td then time_calls t (in_local i) else []) ++
    secondDot_calls (tm_second (in_local i)) ++
    sats_calls (tm_second (in_local i)) (in_ms_sats i)
      (satellites_value (in_gps i)) /\
  display_view (exec (loop i) w) = (true, t, after_region td cc2).
Proof.
  intros Hs Hd. cbv zeta.
  rewrite loop_exec by exact Hd. rewrite loop_after_check_exec.
  rewrite scheduledSync_tft, syncOnBoot_tft, setBackLightBrightness_tft.
  rewrite (keeps_exec scheduledSync_view), (keeps_exec syncOnBoot_view),
    (keeps_exec (setBackLightBrightness_view _)).
  rewrite loop_prologue_exec, Hs.
  set (w2 := set_local (in_local i) (set_utc (in_utc i)
               (set_gps (in_gps i) (set_currentMillis (in_millis i) w)))).
  assert (H2 : rtcSet w2 = true /\ local w2 = in_local i /\ gps w2 = in_gps i /\
               tft w2 = tft w /\ numberColor w2 = numberColor w /\
               colorChange w2 = colorChange w).
  { subst w2. destruct w. cbv [rtcSet] in Hs. wproj. repeat split; auto. }
  destruct H2 as (H2s & H2l & H2g & H2t & H2c & H2cc).
  pose proof (synced_display (in_light_color i) (in_ms_date i) (in_ms_time i)
                (in_ms_sats i) w2 H2s) as E.
  cbv zeta in E. rewrite H2l, H2g, H2t, H2c, H2cc in E. exact E.
Qed.

(** C6 (counterexample).  With the clock set and a light reading of 40,
    a pass at 19:59:58 leaves the colour white; the pass at 20:00:01
    turns it red and redraws the date and the time region, and ends with
    the holdoff counter at 0; the pass at 20:00:02 that follows sends the
    marks of the seconds animation and nothing else: neither region is
    redrawn. *)
Lemma holdoff_spent_in_the_flip_pass :
  let w1 := exec (loop (pass 100000 (gps_fix 6 500) t195958 40)) booted in
  let w2 := exec (loop (pass 100400 (gps_fix 6 900) t200001 40)) w1 in
  let w3 := exec (loop (pass 100800 (gps_fix 6 1300) t200002 40)) w2 in
  rtcSet w1 = true /\ numberColor w1 = ILI9340_WHITE /\
  numberColor w2 = ILI9340_RED /\ colorChange w2 = 0 /\
  tft w2 = tft w1 ++ date_calls ILI9340_RED t200001 ++
           time_calls ILI9340_RED t200001 ++ secondDot_calls 1 /\
  numberColor w3 = ILI9340_RED /\
  tft w3 = tft w2 ++ secondDot_calls 2.
Proof. vm_compute. repeat split. Qed.

Lemma Color_eqb_neq a b : a <> b -> Color_eqb a b = false.
Proof. destruct (Color_eqb_spec a b); congruence. Qed.

Lemma Color_eqb_refl a : Color_eqb a a = true.
Proof. destruct a; reflexivity. Qed.

Lemma date_due_holdoff l ms cc : 0 < cc -> date_due l ms cc = true.
Proof.
  intros H. unfold date_due. destruct (Z.ltb_spec 0 cc); [|lia].
  apply orb_true_r.
Qed.

Lemma time_due_holdoff l ms cc : 0 < cc -> time_due l ms cc = true.
Proof.
  intros H. unfold time_due. destruct (Z.ltb_spec 0 cc); [|lia].
  apply orb_true_r.
Qed.

(** C6 (amended).  Take a pass that runs to its end on a world in which
    the clock is set, and in which the colour decided by [setNumberColor]
    (red when the local hour is 20 or later or before 6 and the light
    reading is at most 100, white otherwise) differs from the current
    one.  In that pass the colour flips and the holdoff counter is set
    to 2; the date region and then the time region are each redrawn once
    in the new colour, whatever the clock shows, each redraw taking 1 off
    the counter, so that the pass ends with the counter at 0.  A pass that
    follows with the same colour redraws neither region unless the region
    is due for another reason (midnight window, top of the minute, first
    2.5 s). *)
Theorem color_flip_redraws_once (i : CycleIn) (w : World) :
  rtcSet w = true ->
  no_gps_detected i = false ->
  color_tier (in_local i) (in_light_color i) <> numberColor w ->
  let t := color_tier (in_local i) (in_light_color i) in
  let w' := exec (loop i) w in
  (forall w0, local w0 = in_local i -> numberColor w0 = numberColor w ->
     numberColor (exec (setNumberColor (in_light_color i)) w0) = t /\
     colorChange (exec (setNumberColor (in_light_color i)) w0) = 2) /\
  tft w' = tft w ++ date_calls t (in_local i) ++ time_calls t (in_local i) ++
           secondDot_calls (tm_second (in_local i)) ++
           sats_calls (tm_second (in_local i)) (in_ms_sats i)
             (satellites_value (in_gps i)) /\
  rtcSet w' = true /\ numberColor w' = t /\ colorChange w' = 0 /\
  (forall i',
     no_gps_detected i' = false ->
     color_tier (in_local i') (in_light_color i') = t ->
     date_due (in_local i') (in_ms_date i') 0 = false ->
     time_due (in_local i') (in_ms_time i') 0 = false ->
     tft (exec (loop i') w') =
       tft w' ++ secondDot_calls (tm_second (in_local i')) ++
       sats_calls (tm_second (in_local i')) (in_ms_sats i')
         (satellites_value (in_gps i')) /\
     colorChange (exec (loop i') w') = 0).
Proof.
  intros Hs Hd Hne. cbv zeta.
  destruct (synced_pass i w Hs Hd) as [Ht Hv]. cbv zeta in Ht, Hv.
  rewrite Color_eqb_neq in Ht, Hv by congruence.
  rewrite date_due_holdoff in Ht, Hv by lia.
  change (after_region true 2) with 1 in Ht, Hv.
  rewrite time_due_holdoff in Ht, Hv by lia.
  change (after_region true 1) with 0 in Hv.
  unfold display_view in Hv. injection Hv as Hv1 Hv2 Hv3.
  split; [|split; [exact Ht|split; [exact Hv1|split; [exact Hv2|split; [exact Hv3|]]]]].
  - intros w0 Hl Hc.
    destruct (setNumberColor_fields (in_light_color i) w0) as (Hc' & Hcc' & _).
    cbv zeta in Hc', Hcc'. rewrite Hl in Hc', Hcc'. rewrite Hc in Hcc'.
    rewrite Color_eqb_neq in Hcc' by congruence. auto.
  - intros i' Hd' Ht' Hdd Htd.
    destruct (synced_pass i' (exec (loop i) w) Hv1 Hd') as [Ht2 Hv']. cbv zeta in Ht2, Hv'.
    rewrite Hv2, Hv3, Ht', Color_eqb_refl in Ht2, Hv'.
    rewrite Hdd in Ht2, Hv'. cbv [after_region] in Ht2, Hv'.
    rewrite Htd in Ht2, Hv'.
    unfold display_view in Hv'. injection Hv' as _ _ Hv'3.
    split; [exact Ht2 | exact Hv'3].
Qed.

(** C6 (witness): the pass at 20:00:01 with a light reading of 40,
    after a pass at 19:59:58. *)
Lemma color_flip_redraws_once_witness :
  numberColor (exec (loop (pass 100000 (gps_fix 6 500) t195958 40)) booted)
    = ILI9340_WHITE /\
  colorChange
    (exec (loop (pass 100400 (gps_fix 6 900) t200001 40))
       (exec (loop (pass 100000 (gps_fix 6 500) t195958 40)) booted)) = 0.
Proof.
  split; [vm_compute; reflexivity|].
  assert (H1 : rtcSet (exec (loop (pass 100000 (gps_fix 6 500) t195958 40)) booted)
               = true) by (vm_compute; reflexivity).
  assert (H2 : no_gps_detected (pass 100400 (gps_fix 6 900) t200001 40) = false)
    by (vm_compute; reflexivity).
  assert (H3 : color_tier (in_local (pass 100400 (gps_fix 6 900) t200001 40))
                 (in_light_color (pass 100400 (gps_fix 6 900) t200001 40)) <>
               numberColor (exec (loop (pass 100000 (gps_fix 6 500) t195958 40)) booted))
    by (vm_compute; discriminate).
  pose proof (color_flip_redraws_once (pass 100400 (gps_fix 6 900) t200001 40)
                (exec (loop (pass 100000 (gps_fix 6 500) t195958 40)) booted)
                H1 H2 H3) as H.
  cbv zeta in H. destruct H as (_ & _ & _ & _ & H & _). exact H.
Defined.

(** ** The time region when nothing changed *)



(** ** The seven-segment renderer *)

(** *** The two loops of a segment stop at their exit test *)

Section SegmentLoops.

Variable horizontal : bool.
Variable col : Color.
(** The bound of the exit test, an [unsigned int]. *)
Variable bound : Z.
Hypothesis bound_u16 : bound < 65536.

(** With [bound - b] passes of fuel the first loop leaves by its test,
    and any more fuel changes nothing. *)
Lemma widen_exits fuel :
  forall a b w, 0 <= b -> (Z.to_nat (bound - b) <= fuel)%nat ->
  widen fuel horizontal col a b w bound =
    widen (Z.to_nat (bound - b)) horizontal col a b w bound /\
  (snd (fst (snd (widen fuel horizontal col a b w bound))) <? bound) = false.
Proof.
  induction fuel as [|fuel IH]; intros a b w Hb Hf.
  - assert (Z.to_nat (bound - b) = 0%nat) as -> by lia. simpl.
    split; [reflexivity|]. apply Z.ltb_ge. lia.
  - simpl. destruct (Z.ltb_spec b bound) as [Hlt|Hge].
    + assert (Hu : u16 (b + 1) = b + 1) by (apply u16_small; lia).
      destruct (Z.to_nat (bound - b)) as [|k] eqn:Hk; [lia|].
      simpl. destruct (Z.ltb_spec b bound); [|lia].
      destruct (IH (u16 (a - 1)) (u16 (b + 1)) (u16 (w + 2))) as [IH1 IH2];
        [rewrite Hu; lia | rewrite Hu; lia |].
      assert (Hk' : k = Z.to_nat (bound - u16 (b + 1))) by (rewrite Hu; lia).
      rewrite IH1 in *. rewrite <- Hk' in *.
      destruct (widen k horizontal col (u16 (a - 1)) (u16 (b + 1)) (u16 (w + 2)) bound)
        as [calls [[a' b'] w']].
      split; [reflexivity | exact IH2].
    + assert (Z.to_nat (bound - b) = 0%nat) as -> by lia. simpl.
      split; [reflexivity|]. apply Z.ltb_ge. lia.
Qed.

(** The first loop never moves [b] beyond the bound. *)
Lemma widen_stays fuel :
  forall a b w, 0 <= b <= bound ->
  b <= snd (fst (snd (widen fuel horizontal col a b w bound))) <= bound.
Proof.
  induction fuel as [|fuel IH]; intros a b w Hb; simpl; [lia|].
  destruct (Z.ltb_spec b bound) as [Hl|Hg]; simpl; [|lia].
  assert (Hu : u16 (b + 1) = b + 1) by (apply u16_small; lia).
  specialize (IH (u16 (a - 1)) (u16 (b + 1)) (u16 (w + 2))).
  destruct (widen fuel horizontal col (u16 (a - 1)) (u16 (b + 1)) (u16 (w + 2)) bound)
    as [calls [[a' b'] w']].
  simpl in *. rewrite Hu in IH. lia.
Qed.

(** The first loop makes [bound - b] calls. *)
Lemma widen_length fuel :
  forall a b w, 0 <= b -> fuel = Z.to_nat (bound - b) ->
  List.length (fst (widen fuel horizontal col a b w bound)) = fuel.
Proof.
  induction fuel as [|fuel IH]; intros a b w Hb Hf; [reflexivity|].
  simpl. destruct (Z.ltb_spec b bound) as [Hlt|Hge]; [|lia].
  assert (Hu : u16 (b + 1) = b + 1) by (apply u16_small; lia).
  specialize (IH (u16 (a - 1)) (u16 (b + 1)) (u16 (w + 2))).
  destruct (widen fuel horizontal col (u16 (a - 1)) (u16 (b + 1)) (u16 (w + 2)) bound)
    as [calls r].
  simpl in *. f_equal. apply IH; rewrite Hu; lia.
Qed.

(** With [bound - b] passes of fuel the second loop leaves by its test:
    it makes exactly [bound - b] calls, and any more fuel changes
    nothing. *)
Lemma narrow_exits fuel :
  forall a b w, 0 <= b -> (Z.to_nat (bound - b) <= fuel)%nat ->
  narrow fuel horizontal col a b w bound =
    narrow (Z.to_nat (bound - b)) horizontal col a b w bound /\
  List.length (narrow fuel horizontal col a b w bound) = Z.to_nat (bound - b).
Proof.
  induction fuel as [|fuel IH]; intros a b w Hb Hf.
  - assert (Z.to_nat (bound - b) = 0%nat) as -> by lia. split; reflexivity.
  - simpl. destruct (Z.ltb_spec b bound) as [Hlt|Hge].
    + assert (Hu : u16 (b + 1) = b + 1) by (apply u16_small; lia).
      destruct (Z.to_nat (bound - b)) as [|k] eqn:Hk; [lia|].
      simpl. destruct (Z.ltb_spec b bound); [|lia].
      destruct (IH (u16 (a + 1)) (u16 (b + 1)) (u16 (w - 2))) as [IH1 IH2];
        [rewrite Hu; lia | rewrite Hu; lia |].
      assert (Hk' : k = Z.to_nat (bound - u16 (b + 1))) by (rewrite Hu; lia).
      split.
      * rewrite IH1, <- Hk'. reflexivity.
      * simpl. rewrite IH2, <- Hk'. reflexivity.
    + assert (Z.to_nat (bound - b) = 0%nat) as -> by lia. split; reflexivity.
Qed.

End SegmentLoops.

(** A segment of size [cS] between 1 and 10 that lies within the
    [unsigned int] range is made of [2 * cS] lines. *)
Lemma draw_segment_length cS xLoc col sx sy horizontal :
  1 <= cS <= 10 ->
  0 <= sx -> 0 <= sy -> 0 <= xLoc ->
  xLoc + sx + 7 * cS < 65536 -> sy + 7 * cS < 65536 ->
  List.length (draw_segment cS xLoc col (sx, sy, horizontal)) = Z.to_nat (2 * cS).
Proof.
  intros HcS Hsx Hsy Hx Hxb Hyb. unfold draw_segment, S2, S3, S4.
  rewrite (u16_small (2 * cS)), (u16_small (5 * cS)), (u16_small (7 * cS)) by lia.
  rewrite !u16_small by lia.
  assert (E : forall a b w h t, 0 <= b -> h = b + cS -> t = b + 2 * cS ->
    t < 65536 ->
    List.length
      (let '(top, (a', b', w')) := widen (Z.to_nat (h - b)) horizontal col a b w h in
       top ++ narrow (Z.to_nat (t - b')) horizontal col a' b' w' t) =
    Z.to_nat (2 * cS)).
  { intros a b w h t Hb Hh Ht Hlt.
    pose proof (widen_length horizontal col h ltac:(lia) (Z.to_nat (h - b)) a b w
                  Hb eq_refl) as Hlen.
    pose proof (widen_exits horizontal col h ltac:(lia) (Z.to_nat (h - b)) a b w
                  Hb (le_n _)) as [_ Hex].
    pose proof (widen_stays horizontal col h ltac:(lia) (Z.to_nat (h - b)) a b w
                  ltac:(lia)) as Hb'.
    destruct (widen (Z.to_nat (h - b)) horizontal col a b w h)
      as [top [[a' b'] w']].
    simpl in Hlen, Hex, Hb'. apply Z.ltb_ge in Hex.
    assert (b' = h) by lia. subst b'.
    rewrite List.length_app, Hlen.
    destruct (narrow_exits horizontal col t Hlt (Z.to_nat (t - h)) a' h w'
                ltac:(lia) (le_n _)) as [_ Hn].
    rewrite Hn. lia. }
  destruct horizontal; apply E; lia.
Qed.

(** *** Digit cells and glyphs *)

Lemma digit_count_range nD : 1 <= digit_count nD <= 10.
Proof.
  unfold digit_count. destruct (Z.ltb_spec 10 (u8 (abs nD))); simpl.
  - lia.
  - destruct (Z.ltb_spec (u8 (abs nD)) 1); lia.
Qed.

Lemma char_size_range cS : 1 <= char_size cS <= 10.
Proof.
  unfold char_size. destruct (Z.ltb_spec 10 (u8 (abs cS))); simpl.
  - lia.
  - destruct (Z.ltb_spec (u8 (abs cS)) 1); lia.
Qed.

(** For a [char] argument the count is the magnitude, cut to 1..10. *)
Lemma digit_count_clamp nD :
  -128 <= nD <= 127 ->
  digit_count nD = Z.max 1 (Z.min 10 (Z.abs nD)).
Proof.
  intros H. unfold digit_count. rewrite abs_Zabs, u8_small by lia.
  destruct (Z.ltb_spec 10 (Z.abs nD)); simpl; [lia|].
  destruct (Z.ltb_spec (Z.abs nD) 1); lia.
Qed.

Lemma char_size_clamp cS :
  -128 <= cS <= 127 ->
  char_size cS = Z.max 1 (Z.min 10 (Z.abs cS)).
Proof.
  intros H. unfold char_size. rewrite abs_Zabs, u8_small by lia.
  destruct (Z.ltb_spec 10 (Z.abs cS)); simpl; [lia|].
  destruct (Z.ltb_spec (Z.abs cS) 1); lia.
Qed.

Lemma cells_length cnt n nD num xLoc d :
  List.length (cells cnt n nD num xLoc d) = cnt.
Proof.
  revert num xLoc. induction cnt as [|cnt IH]; intros; simpl; [|rewrite IH];
    reflexivity.
Qed.

(** The number of digit cells drawn is the clamped digit count. *)
Lemma cells_of_length n xLoc cS nD :
  List.length (cells_of n xLoc cS nD) = Z.to_nat (digit_count nD).
Proof. unfold cells_of. apply cells_length. Qed.

(** The cells are drawn right to left, one pitch [d] apart. *)
Lemma cells_positions cnt n nD d :
  forall num x k, 0 <= x < 65536 -> (k < cnt)%nat ->
  nth k (map snd (cells cnt n nD num x d)) 0 = u16 (x - Z.of_nat k * d).
Proof.
  induction cnt as [|cnt IH]; intros num x k Hx Hk; [lia|].
  destruct k as [|k].
  - simpl. rewrite Z.sub_0_r. symmetry. apply u16_small. exact Hx.
  - change (nth (S k) (map snd (cells (S cnt) n nD num x d)) 0)
      with (nth k (map snd (cells cnt n nD (num / 10) (u16 (x - d)) d)) 0).
    rewrite IH by (try apply u16_range; lia).
    rewrite Nat2Z.inj_succ. unfold u16. rewrite Zminus_mod_idemp_l.
    f_equal. ring.
Qed.

(** The glyphs do not depend on the place or the size. *)
Lemma cells_glyphs cnt n nD :
  forall num x d x' d',
  map fst (cells cnt n nD num x d) = map fst (cells cnt n nD num x' d').
Proof.
  induction cnt as [|cnt IH]; intros; simpl; [reflexivity|].
  f_equal. apply IH.
Qed.

Lemma glyphs_place_free n xLoc cS nD : glyphs n xLoc cS nD = glyphs n 0 1 nD.
Proof. unfold glyphs, cells_of. f_equal. apply cells_glyphs. Qed.

(** The three renderings named in the specification. *)
Lemma glyphs_examples xLoc cS :
  glyphs 7 xLoc cS (-3) = [blank; blank; 7] /\
  glyphs 7 xLoc cS 3 = [0; 0; 7] /\
  glyphs (-42) xLoc cS (-3) = [minus; 4; 2].
Proof.
  rewrite (glyphs_place_free 7 xLoc cS (-3)), (glyphs_place_free 7 xLoc cS 3),
    (glyphs_place_free (-42) xLoc cS (-3)).
  repeat split.
Qed.

(** The rightmost glyph of a positive number is its last decimal digit,
    a zero included, whatever the sign of [nD]. *)
Lemma glyphs_last_digit n xLoc cS nD :
  0 < n < 32768 ->
  last (glyphs n xLoc cS nD) blank = n mod 10.
Proof.
  intros Hn. unfold glyphs, cells_of.
  pose proof (digit_count_range nD) as Hc.
  destruct (Z.to_nat (digit_count nD)) as [|k] eqn:Hk; [lia|].
  simpl cells. simpl map. simpl rev. rewrite last_last.
  unfold glyph_of. unfold abs. destruct (Z.ltb_spec 0 n); [|lia].
  rewrite u16_small by lia.
  destruct (Z.ltb_spec 9 n); [reflexivity|].
  destruct (Z.ltb_spec n 0); [lia|]. rewrite andb_false_r.
  destruct (Z.eqb_spec n 0); [lia|]. rewrite andb_false_r.
  symmetry. apply Z.mod_small. lia.
Qed.

(** C4.  What [draw7Number] draws, leftmost glyph first: 7 in three
    places is blank, blank, 7 with leading zeros suppressed and 0, 0, 7
    without; -42 in three places with suppression is minus, 4, 2.  For
    the value 0 with leading zeros suppressed every place is blank, the
    rightmost one included: no zero is shown. *)
Theorem glyphs_of_zero_suppressed (xLoc cS : Z) :
  glyphs 7 xLoc cS (-3) = [blank; blank; 7] /\
  glyphs 7 xLoc cS 3 = [0; 0; 7] /\
  glyphs (-42) xLoc cS (-3) = [minus; 4; 2] /\
  glyphs 0 xLoc cS (-3) = [blank; blank; blank] /\
  glyphs 0 xLoc cS 3 = [0; 0; 0] /\
  draw7Number 0 0 125 5 ILI9340_WHITE ILI9340_BLACK (-2) =
  draw7Number 0 0 125 5 ILI9340_BLACK ILI9340_BLACK (-2).
Proof.
  destruct (glyphs_examples xLoc cS) as (H1 & H2 & H3).
  rewrite (glyphs_place_free 0 xLoc cS (-3)), (glyphs_place_free 0 xLoc cS 3).
  repeat split; assumption || reflexivity.
Qed.

(** C5.  The size clamped to 1..10 is computed and never used: for a
    size of 20 (clamped: 10) the segments are 100 long, 40 thick and 140
    high and the cells are 222 apart, where the clamped size gives 50, 20,
    70 and 112; the first line drawn is 100 wide.  For a size of -5
    (clamped: 5) the lengths are those of -5 taken as an unsigned
    number. *)
Theorem geometry_from_unclamped_size :
  char_size 20 = 10 /\
  (S2 20, S3 20, S4 20, pitch 20) = (100, 40, 140, 222) /\
  (S2 (char_size 20), S3 (char_size 20), S4 (char_size 20), pitch (char_size 20))
    = (50, 20, 70, 112) /\
  hd_error (draw7Number 8 0 0 20 ILI9340_WHITE ILI9340_BLACK 1)
    = Some (drawFastHLine 41 0 100 ILI9340_WHITE) /\
  map snd (cells_of 12 0 20 2) = [222; 0] /\
  char_size (-5) = 5 /\
  (S2 (-5), pitch (-5)) = (65511, 65483).
Proof. vm_compute. repeat split. Qed.

(** Within 1..10 the size is its own clamp, so there the geometry is
    that of the clamped size. *)
Lemma char_size_in_range cS : 1 <= cS <= 10 -> char_size cS = cS.
Proof. intros H. rewrite char_size_clamp by lia. lia. Qed.

Lemma last_cons_nonempty {A} (a : A) (l : list A) (d : A) :
  l <> [] -> last (a :: l) d = last l d.
Proof. destruct l; [contradiction | reflexivity]. Qed.

(** The leftmost place is decided on what is left of the number after
    one division by ten per place to its right. *)
Lemma cells_last n nD cnt :
  forall num x d,
  0 <= num ->
  last (map fst (cells (S cnt) n nD num x d)) blank =
  glyph_of n nD 0 (num / 10 ^ Z.of_nat cnt).
Proof.
  induction cnt as [|cnt IH]; intros num x d Hnum.
  - simpl. rewrite Z.div_1_r. reflexivity.
  - change (cells (S (S cnt)) n nD num x d)
      with ((glyph_of n nD (S cnt) num, x) ::
            cells (S cnt) n nD (num / 10) (u16 (x - d)) d).
    rewrite map_cons, last_cons_nonempty by (simpl; discriminate).
    rewrite IH by (apply Z.div_pos; lia).
    rewrite Z.div_div by lia.
    replace (10 * 10 ^ Z.of_nat cnt) with (10 ^ Z.of_nat (S cnt)); [reflexivity|].
    rewrite Nat2Z.inj_succ, Z.pow_succ_r by lia. reflexivity.
Qed.

Lemma hd_rev_last {A} (l : list A) (d : A) : hd d (rev l) = last l d.
Proof.
  induction l as [|a l IH] using rev_ind; [reflexivity|].
  rewrite rev_app_distr, last_last. reflexivity.
Qed.

(** For a negative number that fits the field (fewer decimal digits than
    places, or as many: then the minus sign takes the place of the first
    digit) the leftmost glyph is the minus sign. *)
Lemma minus_leads n xLoc cS nD :
  -32768 <= n < 0 ->
  - n < 10 ^ digit_count nD ->
  hd blank (glyphs n xLoc cS nD) = minus.
Proof.
  intros Hn Hfit. unfold glyphs, cells_of. rewrite hd_rev_last.
  pose proof (digit_count_range nD) as Hc.
  destruct (Z.to_nat (digit_count nD)) as [|k] eqn:Hk; [lia|].
  assert (Hnum : u16 (abs n) = - n).
  { unfold abs. destruct (Z.ltb_spec 0 n); [lia|]. apply u16_small. lia. }
  rewrite cells_last by (rewrite Hnum; lia).
  rewrite Hnum. unfold glyph_of.
  assert (Hq : - n / 10 ^ Z.of_nat k <= 9).
  { assert (Hp : 0 < 10 ^ Z.of_nat k) by (apply Z.pow_pos_nonneg; lia).
    assert (- n / 10 ^ Z.of_nat k < 10); [|lia].
    apply Z.div_lt_upper_bound; [exact Hp|].
    replace (10 ^ Z.of_nat k * 10) with (10 ^ digit_count nD); [exact Hfit|].
    replace (digit_count nD) with (Z.succ (Z.of_nat k)) by lia.
    rewrite Z.pow_succ_r by lia. lia. }
  destruct (Z.ltb_spec 9 (- n / 10 ^ Z.of_nat k)); [lia|].
  destruct (Z.ltb_spec n 0); [reflexivity | lia].
Qed.

(** A number too long for the field loses its minus sign. *)
Example minus_lost_on_overflow xLoc cS :
  glyphs (-1420) xLoc cS 3 = [4; 2; 0].
Proof. rewrite glyphs_place_free. reflexivity. Qed.

(** ** A pass in which nothing changed *)

(** On a world in which the clock is set, a pass with the colour
    unchanged, the holdoff counter run out (and not at the lowest [int]),
    the second other than 0 and at least 2500 ms on the clock sends
    nothing for the time region. *)
Lemma idle_pass_time_region i w :
  rtcSet w = true ->
  no_gps_detected i = false ->
  color_tier (in_local i) (in_light_color i) = numberColor w ->
  -32768 < colorChange w <= 0 ->
  tm_second (in_local i) <> 0 ->
  2500 <= in_ms_time i ->
  tft (exec (loop i) w) =
    tft w ++
    (if date_due (in_local i) (in_ms_date i) (colorChange w)
     then date_calls (numberColor w) (in_local i) else []) ++
    secondDot_calls (tm_second (in_local i)) ++
    sats_calls (tm_second (in_local i)) (in_ms_sats i)
      (satellites_value (in_gps i)).
Proof.
  intros Hs Hd Ht Hcc Hsec Hms.
  destruct (synced_pass i w Hs Hd) as [H _]. cbv zeta in H.
  rewrite Ht, Color_eqb_refl in H. rewrite H.
  set (dd := date_due (in_local i) (in_ms_date i) (colorChange w)).
  assert (Hcc2 : after_region dd (colorChange w) <= 0).
  { unfold after_region. destruct dd; [|lia]. rewrite i16_small; lia. }
  assert (Htd : time_due (in_local i) (in_ms_time i)
                  (after_region dd (colorChange w)) = false).
  { unfold time_due.
    destruct (Z.eqb_spec (tm_second (in_local i)) 0); [contradiction|].
    destruct (Z.ltb_spec (in_ms_time i) 2500); [lia|].
    destruct (Z.ltb_spec 0 (after_region dd (colorChange w))); [lia|].
    reflexivity. }
  rewrite Htd. reflexivity.
Qed.

(** * Further properties *)

(** ** The glyphs of [draw7Number] in closed form *)

(** The [k]-th pass of [while (cnt > 0)] decides on the number divided
    [k] times by ten. *)
Lemma cells_nth_glyph n nD d cnt :
  forall num x k, 0 <= num -> (k < cnt)%nat ->
  nth k (map fst (cells cnt n nD num x d)) blank =
  glyph_of n nD (cnt - 1 - k) (num / 10 ^ Z.of_nat k).
Proof.
  induction cnt as [|cnt IH]; intros num x k Hnum Hk; [lia|].
  destruct k as [|k].
  - replace (S cnt - 1 - 0)%nat with cnt by lia.
    simpl. rewrite Z.div_1_r. reflexivity.
  - change (nth (S k) (map fst (cells (S cnt) n nD num x d)) blank)
      with (nth k (map fst (cells cnt n nD (num / 10) (u16 (x - d)) d)) blank).
    rewrite IH by (try apply Z.div_pos; lia).
    rewrite Z.div_div by lia.
    replace (10 * 10 ^ Z.of_nat k) with (10 ^ Z.of_nat (S k))
      by (rewrite Nat2Z.inj_succ, Z.pow_succ_r by lia; reflexivity).
    f_equal. lia.
Qed.

Lemma glyph_of_nonneg n nD c num :
  0 <= n -> 0 <= num ->
  glyph_of n nD c num =
  if (nD <? 0) && (num =? 0) then blank else num mod 10.
Proof.
  intros Hn Hnum. unfold glyph_of.
  destruct (Z.ltb_spec n 0); [lia|]. rewrite andb_false_r.
  destruct (Z.ltb_spec 9 num).
  - destruct (Z.eqb_spec num 0); [lia|]. rewrite andb_false_r. reflexivity.
  - destruct ((nD <? 0) && (num =? 0)); [reflexivity|].
    symmetry. apply Z.mod_small. lia.
Qed.

Lemma nth_rev_rev {A} (l : list A) (d : A) k :
  nth k (rev (rev l)) d = nth k l d.
Proof. rewrite rev_involutive. reflexivity. Qed.

(** X1.  For a value [n] that is not negative, the glyph in the [k]-th
    place from the right is the [k]-th decimal digit of [n]; with a
    negative [nD] it is blank instead as soon as nothing but zeros is
    left of the number at that place. *)
Theorem glyph_at_place (n xLoc cS nD : Z) (k : nat) :
  0 <= n < 32768 ->
  (k < Z.to_nat (digit_count nD))%nat ->
  nth k (rev (glyphs n xLoc cS nD)) blank =
  if (nD <? 0) && (n / 10 ^ Z.of_nat k =? 0) then blank
  else (n / 10 ^ Z.of_nat k) mod 10.
Proof.
  intros Hn Hk. unfold glyphs. rewrite nth_rev_rev. unfold cells_of.
  assert (Hnum : u16 (abs n) = n).
  { rewrite abs_Zabs, Z.abs_eq by lia. apply u16_small. lia. }
  rewrite Hnum, cells_nth_glyph by lia.
  apply glyph_of_nonneg; [lia|]. apply Z.div_pos; [lia|].
  apply Z.pow_pos_nonneg; lia.
Qed.

(** X1 (witness): 10 in three places, leading zeros suppressed: the
    middle place shows 1. *)
Lemma glyph_at_place_witness :
  nth 1 (rev (glyphs 10 0 5 (-3))) blank = 1.
Proof.
  rewrite (glyph_at_place 10 0 5 (-3) 1); [reflexivity | lia |].
  vm_compute. lia.
Defined.

Lemma shown_rev gs : shown (rev gs) = shown_lsd gs.
Proof.
  unfold shown. induction gs as [|g r IH]; [reflexivity|].
  simpl rev. rewrite fold_left_app. cbn [fold_left shown_lsd].
  rewrite IH. lia.
Qed.

Lemma glyph_value_nonneg n nD c num :
  0 <= n -> 0 <= num ->
  glyph_value (glyph_of n nD c num) = num mod 10.
Proof.
  intros Hn Hnum. rewrite glyph_of_nonneg by assumption.
  destruct (Z.ltb_spec nD 0); simpl.
  - destruct (Z.eqb_spec num 0) as [->|Hne]; [reflexivity|].
    unfold glyph_value, blank.
    pose proof (Z.mod_pos_bound num 10 ltac:(lia)).
    destruct (Z.eqb_spec (num mod 10) 10); [lia | reflexivity].
  - unfold glyph_value, blank.
    pose proof (Z.mod_pos_bound num 10 ltac:(lia)).
    destruct (Z.eqb_spec (num mod 10) 10); [lia | reflexivity].
Qed.

Lemma cells_shown n nD d cnt :
  forall num x, 0 <= n -> 0 <= num ->
  shown_lsd (map fst (cells cnt n nD num x d)) = num mod 10 ^ Z.of_nat cnt.
Proof.
  induction cnt as [|cnt IH]; intros num x Hn Hnum.
  - simpl. rewrite Z.mod_1_r. reflexivity.
  - change (shown_lsd (map fst (cells (S cnt) n nD num x d)))
      with (glyph_value (glyph_of n nD cnt num) +
            10 * shown_lsd (map fst (cells cnt n nD (num / 10) (u16 (x - d)) d))).
    rewrite IH by (try apply Z.div_pos; lia).
    rewrite glyph_value_nonneg by assumption.
    rewrite Nat2Z.inj_succ, Z.pow_succ_r by lia.
    rewrite Z.rem_mul_r; [reflexivity | lia |].
    apply Z.pow_pos_nonneg; lia.
Qed.

(** X2.  Read back as a decimal number (a blank place counting as zero),
    the glyphs drawn for a value [n] that is not negative give [n] cut to
    as many low digits as there are places: [n] itself when it fits. *)
Theorem shown_is_value_mod (n xLoc cS nD : Z) :
  0 <= n < 32768 ->
  shown (glyphs n xLoc cS nD) = n mod 10 ^ digit_count nD /\
  (n < 10 ^ digit_count nD -> shown (glyphs n xLoc cS nD) = n).
Proof.
  intros Hn.
  assert (E : shown (glyphs n xLoc cS nD) = n mod 10 ^ digit_count nD).
  { unfold glyphs. rewrite shown_rev. unfold cells_of.
    assert (Hnum : u16 (abs n) = n).
    { rewrite abs_Zabs, Z.abs_eq by lia. apply u16_small. lia. }
    rewrite Hnum, cells_shown by lia.
    pose proof (digit_count_range nD). rewrite Z2Nat.id by lia. reflexivity. }
  split; [exact E|]. intros Hfit. rewrite E. apply Z.mod_small. lia.
Qed.

(** X2 (witness): 1234 in two places shows 34. *)
Lemma shown_is_value_mod_witness :
  shown (glyphs 1234 0 5 2) = 34.
Proof.
  destruct (shown_is_value_mod 1234 0 5 2) as [H _]; [lia|].
  rewrite H. reflexivity.
Defined.

Lemma cells_split_last n nD d cnt :
  forall num x, 0 <= num ->
  map fst (cells (S cnt) n nD num x d) =
  map fst (cells cnt 0 nD num x d) ++ [glyph_of n nD 0 (num / 10 ^ Z.of_nat cnt)].
Proof.
  induction cnt as [|cnt IH]; intros num x Hnum.
  - simpl. rewrite Z.div_1_r. reflexivity.
  - change (map fst (cells (S (S cnt)) n nD num x d))
      with (glyph_of n nD (S cnt) num ::
            map fst (cells (S cnt) n nD (num / 10) (u16 (x - d)) d)).
    rewrite IH by (apply Z.div_pos; lia).
    rewrite Z.div_div by lia.
    replace (10 * 10 ^ Z.of_nat cnt) with (10 ^ Z.of_nat (S cnt))
      by (rewrite Nat2Z.inj_succ, Z.pow_succ_r by lia; reflexivity).
    change (map fst (cells (S cnt) 0 nD num x d))
      with (glyph_of 0 nD cnt num ::
            map fst (cells cnt 0 nD (num / 10) (u16 (x - d)) d)).
    simpl app. f_equal.
    unfold glyph_of. simpl. rewrite !andb_false_r. reflexivity.
Qed.

(** X3.  For a negative value whose magnitude has no more decimal digits
    than there are places, the leftmost glyph is the minus sign and the
    places to its right show the magnitude cut to one digit fewer than
    there are places: the sign takes a place of its own, and a magnitude
    that fills every place loses its leading digit. *)
Theorem negative_value_glyphs (n xLoc cS nD : Z) :
  -32768 <= n < 0 ->
  - n < 10 ^ digit_count nD ->
  exists rest,
    glyphs n xLoc cS nD = minus :: rest /\
    shown rest = (- n) mod 10 ^ (digit_count nD - 1).
Proof.
  intros Hn Hfit.
  pose proof (digit_count_range nD) as Hc.
  assert (Hnum : u16 (abs n) = - n).
  { unfold abs. destruct (Z.ltb_spec 0 n); [lia|]. apply u16_small. lia. }
  unfold glyphs, cells_of. rewrite Hnum.
  destruct (Z.to_nat (digit_count nD)) as [|k] eqn:Hk; [lia|].
  rewrite cells_split_last by lia.
  rewrite rev_app_distr. simpl rev. simpl app.
  exists (rev (map fst (cells k 0 nD (- n)
                 (u16 (xLoc + (digit_count nD - 1) * pitch cS)) (pitch cS)))).
  split.
  - f_equal. unfold glyph_of.
    assert (Hq : - n / 10 ^ Z.of_nat k < 10).
    { apply Z.div_lt_upper_bound; [apply Z.pow_pos_nonneg; lia|].
      replace (10 ^ Z.of_nat k * 10) with (10 ^ digit_count nD); [exact Hfit|].
      replace (digit_count nD) with (Z.succ (Z.of_nat k)) by lia.
      rewrite Z.pow_succ_r by lia. lia. }
    destruct (Z.ltb_spec 9 (- n / 10 ^ Z.of_nat k)); [lia|].
    destruct (Z.ltb_spec n 0); [reflexivity | lia].
  - rewrite shown_rev, cells_shown by lia.
    f_equal. f_equal. lia.
Qed.

(** X3 (witness): -142 in three places shows minus, 4, 2. *)
Lemma negative_value_glyphs_witness :
  exists rest, glyphs (-142) 0 5 3 = minus :: rest /\ shown rest = 42.
Proof.
  destruct (negative_value_glyphs (-142) 0 5 3) as (rest & H1 & H2);
    [lia | vm_compute; reflexivity |].
  exists rest. split; [exact H1 | rewrite H2; reflexivity].
Defined.

(** ** Where [draw7Number] draws *)

Lemma stroke_uncolored horizontal a b w col col' :
  uncolored (stroke horizontal a b w col) = uncolored (stroke horizontal a b w col').
Proof. destruct horizontal; reflexivity. Qed.

Lemma widen_uncolored horizontal col col' h fuel :
  forall a b w,
  map uncolored (fst (widen fuel horizontal col a b w h)) =
  map uncolored (fst (widen fuel horizontal col' a b w h)) /\
  snd (widen fuel horizontal col a b w h) = snd (widen fuel horizontal col' a b w h).
Proof.
  induction fuel as [|fuel IH]; intros a b w; simpl; [split; reflexivity|].
  destruct (b <? h); [|split; reflexivity].
  specialize (IH (u16 (a - 1)) (u16 (b + 1)) (u16 (w + 2))).
  destruct (widen fuel horizontal col (u16 (a - 1)) (u16 (b + 1)) (u16 (w + 2)) h)
    as [c1 r1].
  destruct (widen fuel horizontal col' (u16 (a - 1)) (u16 (b + 1)) (u16 (w + 2)) h)
    as [c2 r2].
  simpl in *. destruct IH as [IH1 IH2]. split; [|exact IH2].
  rewrite IH1, (stroke_uncolored horizontal a b w col col'). reflexivity.
Qed.

Lemma narrow_uncolored horizontal col col' t fuel :
  forall a b w,
  map uncolored (narrow fuel horizontal col a b w t) =
  map uncolored (narrow fuel horizontal col' a b w t).
Proof.
  induction fuel as [|fuel IH]; intros a b w; simpl; [reflexivity|].
  destruct (b <? t); [|reflexivity].
  simpl. rewrite IH, (stroke_uncolored horizontal a b w col col'). reflexivity.
Qed.

Lemma draw_segment_uncolored cS xLoc col col' sg :
  map uncolored (draw_segment cS xLoc col sg) =
  map uncolored (draw_segment cS xLoc col' sg).
Proof.
  destruct sg as [[sx sy] horizontal]. unfold draw_segment.
  destruct (if horizontal then _ else _) as [[[[w t] h] a] b].
  destruct (widen_uncolored horizontal col col' h (Z.to_nat (h - b)) a b w)
    as [H1 H2].
  destruct (widen (Z.to_nat (h - b)) horizontal col a b w h) as [c1 [[a1 b1] w1]].
  destruct (widen (Z.to_nat (h - b)) horizontal col' a b w h) as [c2 [[a2 b2] w2]].
  simpl in H1, H2. injection H2 as -> -> ->.
  rewrite !map_app, H1, (narrow_uncolored horizontal col col'). reflexivity.
Qed.

Lemma flat_map_map_ext {A B C} (h : B -> C) (f g : A -> list B) (l : list A) :
  (forall x, map h (f x) = map h (g x)) ->
  map h (flat_map f l) = map h (flat_map g l).
Proof.
  intros H. induction l as [|x l IH]; [reflexivity|].
  simpl. rewrite !map_app, IH, H. reflexivity.
Qed.

Lemma draw_glyph_uncolored cS xLoc yLoc fC bC fC' bC' i i' :
  map uncolored (draw_glyph cS xLoc yLoc fC bC i) =
  map uncolored (draw_glyph cS xLoc yLoc fC' bC' i').
Proof.
  unfold draw_glyph. apply flat_map_map_ext. intros [j sg].
  apply draw_segment_uncolored.
Qed.

Lemma cells_uncolored cS yLoc fC bC fC' bC' nD nD' n n' d cnt :
  forall num num' x,
  map uncolored
    (flat_map (fun '(i, x) => draw_glyph cS x yLoc fC bC i)
       (cells cnt n nD num x d)) =
  map uncolored
    (flat_map (fun '(i, x) => draw_glyph cS x yLoc fC' bC' i)
       (cells cnt n' nD' num' x d)).
Proof.
  induction cnt as [|cnt IH]; intros num num' x; [reflexivity|].
  simpl cells. simpl flat_map. rewrite !map_app.
  rewrite (IH (num / 10) (num' / 10)). f_equal.
  apply draw_glyph_uncolored.
Qed.

(** X4.  The lines [draw7Number] draws do not depend on the number or on
    the colours: two calls at the same place, of the same size and with
    as many places draw the same lines in the same order and differ in
    colours only.  Drawing a number therefore paints over every line of
    the number drawn there before. *)
Theorem draw7Number_same_lines
    (n n' xLoc yLoc cS nD nD' : Z) (fC bC fC' bC' : Color) :
  digit_count nD = digit_count nD' ->
  map uncolored (draw7Number n xLoc yLoc cS fC bC nD) =
  map uncolored (draw7Number n' xLoc yLoc cS fC' bC' nD').
Proof.
  intros Hc. unfold draw7Number, cells_of. rewrite Hc.
  apply cells_uncolored.
Qed.

(** X4 (witness): 12 and 7 in two places, one with and one without
    leading zeros. *)
Lemma draw7Number_same_lines_witness :
  map uncolored (draw7Number 12 0 125 5 ILI9340_WHITE ILI9340_BLACK (-2)) =
  map uncolored (draw7Number 7 0 125 5 ILI9340_RED ILI9340_BLACK 2).
Proof.
  apply (draw7Number_same_lines 12 7 0 125 5 (-2) 2). reflexivity.
Defined.

Lemma widen_colors horizontal col h fuel :
  forall a b w,
  Forall (fun c => is_line c = true /\ call_color c = Some col)
    (fst (widen fuel horizontal col a b w h)).
Proof.
  induction fuel as [|fuel IH]; intros a b w; simpl; [constructor|].
  destruct (b <? h); [|constructor].
  specialize (IH (u16 (a - 1)) (u16 (b + 1)) (u16 (w + 2))).
  destruct (widen fuel horizontal col (u16 (a - 1)) (u16 (b + 1)) (u16 (w + 2)) h)
    as [c1 r1].
  simpl in *. constructor; [destruct horizontal; split; reflexivity | exact IH].
Qed.

Lemma narrow_colors horizontal col t fuel :
  forall a b w,
  Forall (fun c => is_line c = true /\ call_color c = Some col)
    (narrow fuel horizontal col a b w t).
Proof.
  induction fuel as [|fuel IH]; intros a b w; simpl; [constructor|].
  destruct (b <? t); [|constructor].
  constructor; [destruct horizontal; split; reflexivity | apply IH].
Qed.

Lemma draw_segment_colors cS xLoc col sg :
  Forall (fun c => is_line c = true /\ call_color c = Some col)
    (draw_segment cS xLoc col sg).
Proof.
  destruct sg as [[sx sy] horizontal]. unfold draw_segment.
  destruct (if horizontal then _ else _) as [[[[w t] h] a] b].
  pose proof (widen_colors horizontal col h (Z.to_nat (h - b)) a b w) as H.
  destruct (widen (Z.to_nat (h - b)) horizontal col a b w h) as [c1 [[a1 b1] w1]].
  simpl in H. apply Forall_app. split; [exact H | apply narrow_colors].
Qed.

(** X5.  [draw7Number] makes no call but fast horizontal and vertical
    lines, and draws each of them in the foreground or in the background
    colour it was given. *)
Theorem draw7Number_two_colors (n xLoc yLoc cS nD : Z) (fC bC : Color) :
  Forall (fun c => is_line c = true /\
                   (call_color c = Some fC \/ call_color c = Some bC))
    (draw7Number n xLoc yLoc cS fC bC nD).
Proof.
  unfold draw7Number. apply Forall_flat_map. apply Forall_forall.
  intros [i x] _. unfold draw_glyph. apply Forall_flat_map. apply Forall_forall.
  intros [j sg] _.
  eapply Forall_impl; [|apply draw_segment_colors].
  intros c [Hl Hc]. simpl in Hc. split; [exact Hl|].
  destruct (Z.testbit _ j); auto.
Qed.

Lemma within_uncolored x0 x1 y0 y1 c :
  within x0 x1 y0 y1 (uncolored c) = within x0 x1 y0 y1 c.
Proof. destruct c; reflexivity. Qed.

Lemma forallb_within_uncolored x0 x1 y0 y1 l :
  forallb (within x0 x1 y0 y1) (map uncolored l) = forallb (within x0 x1 y0 y1) l.
Proof.
  induction l as [|c l IH]; [reflexivity|].
  simpl. rewrite IH, within_uncolored. reflexivity.
Qed.

(** The two digits of the hour and of the minute as [tftDisplayTime]
    draws them: 140 lines each, in fixed boxes. *)
Lemma hour_digits_box n c :
  List.length (draw7Number n 0 125 5 c ILI9340_BLACK (-2)) = 140%nat /\
  forallb (within 0 103 125 227) (draw7Number n 0 125 5 c ILI9340_BLACK (-2)) = true.
Proof.
  assert (E : map uncolored (draw7Number n 0 125 5 c ILI9340_BLACK (-2)) =
              map uncolored (draw7Number 0 0 125 5 ILI9340_BLACK ILI9340_BLACK (-2)))
    by (unfold draw7Number, cells_of; apply cells_uncolored).
  split.
  - rewrite <- (length_map uncolored), E. vm_compute. reflexivity.
  - rewrite <- forallb_within_uncolored, E. vm_compute. reflexivity.
Qed.

Lemma minute_digits_box n c :
  List.length (draw7Number n 130 125 5 c ILI9340_BLACK 2) = 140%nat /\
  forallb (within 130 233 125 227) (draw7Number n 130 125 5 c ILI9340_BLACK 2) = true.
Proof.
  assert (E : map uncolored (draw7Number n 130 125 5 c ILI9340_BLACK 2) =
              map uncolored (draw7Number 0 130 125 5 ILI9340_BLACK ILI9340_BLACK 2))
    by (unfold draw7Number, cells_of; apply cells_uncolored).
  split.
  - rewrite <- (length_map uncolored), E. vm_compute. reflexivity.
  - rewrite <- forallb_within_uncolored, E. vm_compute. reflexivity.
Qed.

(** X6.  Once the clock is set, a redraw of the time region is, whatever
    the time shown, two filled circles and twice 140 lines: the hour
    digits stay in columns 0..102, the dots in columns 111..119, the
    minute digits in columns 130..232, all in rows 125..226, within the
    240 columns the sketch draws on.  When the region is not due,
    [tftDisplayTime] makes no call. *)
Theorem time_region_layout (ms : Z) (w : World) :
  rtcSet w = true ->
  exists dots hours minutes,
    tft (exec (tftDisplayTime ms) w) =
      tft w ++
      (if (tm_second (local w) =? 0) || (ms <? 2500) || (0 <? colorChange w)
       then dots ++ hours ++ minutes else []) /\
    dots = [fillCircle 115 150 4 (numberColor w); fillCircle 115 200 4 (numberColor w)] /\
    forallb (within 111 120 125 227) dots = true /\
    List.length hours = 140%nat /\
    forallb (within 0 103 125 227) hours = true /\
    List.length minutes = 140%nat /\
    forallb (within 130 233 125 227) minutes = true.
Proof.
  intros Hs.
  exists [fillCircle 115 150 4 (numberColor w); fillCircle 115 200 4 (numberColor w)],
    (draw7Number (hourFormat12 (local w)) 0 125 5 (numberColor w) ILI9340_BLACK (-2)),
    (draw7Number (tm_minute (local w)) 130 125 5 (numberColor w) ILI9340_BLACK 2).
  destruct (hour_digits_box (hourFormat12 (local w)) (numberColor w)) as [H1 H2].
  destruct (minute_digits_box (tm_minute (local w)) (numberColor w)) as [H3 H4].
  repeat split; try assumption.
  rewrite tftDisplayTime_exec, Hs. cbv [negb]. unfold time_due, time_calls.
  destruct ((tm_second (local w) =? 0) || (ms <? 2500) || (0 <? colorChange w));
    destruct w; wproj; rewrite ?app_nil_r; reflexivity.
Qed.

(** X6 (witness): the world once [setup] has run on a set clock, at the
    first paint. *)
Lemma time_region_layout_witness :
  exists dots hours minutes,
    tft (exec (tftDisplayTime 1000) booted) =
      tft booted ++
      (if (tm_second (local booted) =? 0) || (1000 <? 2500) || (0 <? colorChange booted)
       then dots ++ hours ++ minutes else []) /\
    dots = [fillCircle 115 150 4 (numberColor booted);
            fillCircle 115 200 4 (numberColor booted)] /\
    forallb (within 111 120 125 227) dots = true /\
    List.length hours = 140%nat /\
    forallb (within 0 103 125 227) hours = true /\
    List.length minutes = 140%nat /\
    forallb (within 130 233 125 227) minutes = true.
Proof.
  assert (H : rtcSet booted = true) by (vm_compute; reflexivity).
  exact (time_region_layout 1000 booted H).
Defined.

(** ** Where [tftDisplayDate] puts its two lines *)

Lemma odd_shift_even q k : odd_shift (120 - q * (2 * k)) = 120 - q * (2 * k).
Proof.
  unfold odd_shift.
  replace (120 - q * (2 * k)) with ((60 - q * k) * 2) by ring.
  rewrite Z.rem_mul by lia. reflexivity.
Qed.

(** X7.  Once the clock is set and the date region is due, the weekday
    is printed at column 120 - 10 * (length / 2) of its padded name, which
    is an even number: the shift by half a character of
    [if (xpos % 2)] is never applied to that line, also not for the names
    of odd length (column 80 for Tuesday and Wednesday, 70 for the other
    days).  The date is printed at column 60 when the month or the day
    has one digit and at column 40, the only shifted position, when both
    have two. *)
Theorem date_region_cursors (ms : Z) (w : World) :
  rtcSet w = true ->
  date_due (local w) ms (colorChange w) = true ->
  let l := local w in
  let c := numberColor w in
  let dayname := nth (Z.to_nat (tm_weekday l - 1)) daysOfTheWeek ""%string in
  tft (exec (tftDisplayDate ms) w) =
    tft w ++
    [setTextColor c ILI9340_BLACK; setTextSize 2;
     setCursor (120 - 10 * Z.quot (Z.of_nat (String.length dayname)) 2) 10;
     tft_print dayname;
     setCursor (if (tm_month l <? 10) || (tm_day l <? 10) then 60 else 40) 40;
     setTextColor c ILI9340_BLACK; setTextSize 3;
     tft_print_num (tm_month l); tft_print "/"; tft_print_num (tm_day l);
     tft_print "/"; tft_print_num (tm_year l)] /\
  (1 <= tm_weekday l <= 7 ->
   120 - 10 * Z.quot (Z.of_nat (String.length dayname)) 2 =
   if (tm_weekday l =? 3) || (tm_weekday l =? 4) then 80 else 70).
Proof.
  intros Hs Hd. cbv zeta. split.
  - rewrite tftDisplayDate_exec, Hs, Hd. cbv [negb]. unfold date_calls.
    replace (Z.quot (Z.of_nat (String.length
               (nth (Z.to_nat (tm_weekday (local w) - 1)) daysOfTheWeek ""%string))) 2 * 10)
      with (Z.quot (Z.of_nat (String.length
               (nth (Z.to_nat (tm_weekday (local w) - 1)) daysOfTheWeek ""%string))) 2 * (2 * 5))
      by ring.
    rewrite odd_shift_even.
    assert (E : forall m d : bool,
      odd_shift (120 - Z.quot (6 + (if m then 1 else 2) + (if d then 1 else 2)) 2 * 15) =
      if m || d then 60 else 40) by (intros [] []; reflexivity).
    rewrite E.
    replace (Z.quot (Z.of_nat (String.length
               (nth (Z.to_nat (tm_weekday (local w) - 1)) daysOfTheWeek ""%string))) 2 * (2 * 5))
      with (10 * Z.quot (Z.of_nat (String.length
               (nth (Z.to_nat (tm_weekday (local w) - 1)) daysOfTheWeek ""%string))) 2)
      by ring.
    destruct w; reflexivity.
  - intros Hwd.
    assert (Hcases : tm_weekday (local w) = 1 \/ tm_weekday (local w) = 2 \/
                     tm_weekday (local w) = 3 \/ tm_weekday (local w) = 4 \/
                     tm_weekday (local w) = 5 \/ tm_weekday (local w) = 6 \/
                     tm_weekday (local w) = 7) by lia.
    destruct Hcases as [E|[E|[E|[E|[E|[E|E]]]]]]; rewrite E; reflexivity.
Qed.

(** X7 (witness): a Tuesday, with a two-digit month and day, at the
    first paint. *)
Lemma date_region_cursors_witness :
  In (setCursor 80 10)
     (tft (exec (tftDisplayDate 1000) (set_local (mkTm 7 15 20 3 12 11 2024) booted))) /\
  In (setCursor 40 40)
     (tft (exec (tftDisplayDate 1000) (set_local (mkTm 7 15 20 3 12 11 2024) booted))).
Proof.
  assert (H1 : rtcSet (set_local (mkTm 7 15 20 3 12 11 2024) booted) = true)
    by (vm_compute; reflexivity).
  assert (H2 : date_due (local (set_local (mkTm 7 15 20 3 12 11 2024) booted)) 1000
                 (colorChange (set_local (mkTm 7 15 20 3 12 11 2024) booted)) = true)
    by (vm_compute; reflexivity).
  destruct (date_region_cursors 1000 _ H1 H2) as [E _]. cbv zeta in E.
  rewrite E. split; apply in_or_app; right; vm_compute; tauto.
Defined.

(** ** The synchronisation state over whole passes *)

Lemma setNumberColor_sync r : keeps sync_view (setNumberColor r).
Proof. unfold setNumberColor. auto 40 with keeps_db. Qed.

Lemma tftDisplayDate_sync ms : keeps sync_view (tftDisplayDate ms).
Proof. unfold tftDisplayDate, tft_call. auto 80 with keeps_db. Qed.

Lemma tftDisplayTime_sync ms : keeps sync_view (tftDisplayTime ms).
Proof. unfold tftDisplayTime, tft_call, tft_calls. auto 40 with keeps_db. Qed.

Lemma secondDotDisplay2_sync : keeps sync_view secondDotDisplay2.
Proof. unfold secondDotDisplay2, tft_call. auto 40 with keeps_db. Qed.

Lemma tftDisplayGPSsats_sync ms : keeps sync_view (tftDisplayGPSsats ms).
Proof. unfold tftDisplayGPSsats, tft_call. auto 40 with keeps_db. Qed.

Lemma setBackLightBrightness_sync r : keeps sync_view (setBackLightBrightness r).
Proof.
  unfold setBackLightBrightness, analogWrite_backlight. auto 40 with keeps_db.
Qed.

(** The part of a pass between the reading of the local time and
    [syncOnBoot] leaves the synchronisation state alone. *)
Lemma display_stage_sync i w :
  sync_view
    (exec (setBackLightBrightness (in_light_backlight i))
       (exec (tftDisplayGPSsats (in_ms_sats i))
          (exec secondDotDisplay2
             (exec (tftDisplayTime (in_ms_time i))
                (exec (tftDisplayDate (in_ms_date i))
                   (exec (setNumberColor (in_light_color i)) w)))))) =
  sync_view w.
Proof.
  rewrite (keeps_exec (setBackLightBrightness_sync _)),
    (keeps_exec (tftDisplayGPSsats_sync _)), (keeps_exec secondDotDisplay2_sync),
    (keeps_exec (tftDisplayTime_sync _)), (keeps_exec (tftDisplayDate_sync _)),
    (keeps_exec (setNumberColor_sync _)).
  reflexivity.
Qed.

(** The synchronisation routines at the end of a pass, on a world given
    by what they read. *)
Lemma sync_stage w :
  let g := gps w in
  let boot := newboot w && boot_fix g in
  let due := sched_open (scheduledTimer w) (currentMillis w) in
  let sched := due && (tm_minute (local w) =? 21) && fix_valid g in
  let w' := exec scheduledSync (exec syncOnBoot w) in
  rtc_adjusts w' =
    rtc_adjusts w ++ (if boot then [gps_DateTime g] else []) ++
    (if sched then [gps_DateTime g] else []) /\
  rtc w' = (if boot || sched then gps_DateTime g else rtc w) /\
  newboot w' = newboot w && negb (boot_fix g) /\
  rtcSet w' = rtcSet w /\
  gps w' = g /\
  currentMillis w' = currentMillis w /\
  scheduledTimer w' = (if due then currentMillis w else scheduledTimer w) /\
  syncTimer w' =
    (if newboot w
     then if boot_fix g then 0
          else if u32 (syncTimer w + 250) <? currentMillis w
               then currentMillis w else syncTimer w
     else syncTimer w).
Proof.
  cbv zeta. rewrite scheduledSync_exec, syncOnBoot_exec. cbv zeta.
  unfold sched_open, fix_valid.
  destruct w as [set ? ? ? ? ? l ? cm st sch nb g now adj ? ? ?]. wproj.
  destruct nb; cbn [negb andb orb]; wproj.
  - destruct (boot_fix g) eqn:Hb; wproj; cbn [negb andb orb].
    + destruct (u32 (sch + 60000) <? cm); wproj; cbn [andb orb];
        [|rewrite ?app_nil_r; repeat split].
      destruct (tm_minute l =? 21); wproj; cbn [andb orb];
        [|rewrite ?app_nil_r; repeat split].
      rewrite setRTCfromGPS_exec. wproj.
      destruct (date_isValid g && time_isValid g); wproj;
        rewrite <- ?app_assoc, ?app_nil_r; repeat split.
    + destruct (u32 (st + 250) <? cm); wproj;
        (destruct (u32 (sch + 60000) <? cm); wproj; cbn [andb orb];
          [|rewrite ?app_nil_r; repeat split]);
        (destruct (tm_minute l =? 21); wproj; cbn [andb orb];
          [|rewrite ?app_nil_r; repeat split]);
        rewrite setRTCfromGPS_exec; wproj;
        (destruct (date_isValid g && time_isValid g); wproj;
          rewrite <- ?app_assoc, ?app_nil_r; repeat split).
  - destruct (u32 (sch + 60000) <? cm); wproj; cbn [andb orb];
      [|rewrite ?app_nil_r; repeat split].
    destruct (tm_minute l =? 21); wproj; cbn [andb orb];
      [|rewrite ?app_nil_r; repeat split].
    rewrite setRTCfromGPS_exec. wproj.
    destruct (date_isValid g && time_isValid g); wproj;
      rewrite <- ?app_assoc, ?app_nil_r; repeat split.
Qed.

Lemma loop_prologue_timers i w :
  syncTimer (exec (loop_prologue i) w) = syncTimer w /\
  scheduledTimer (exec (loop_prologue i) w) = scheduledTimer w.
Proof.
  rewrite loop_prologue_exec, checkRTCset_exec, setRTCfromGPS_exec.
  destruct w as [set ? ? ? ? ? ? ? ? ? ? ? g now ? ? ? ?]. wproj.
  destruct set; wproj; [split; reflexivity|].
  destruct (date_isValid g && time_isValid g); wproj;
    match goal with |- context [rtc_default ?d] => destruct (rtc_default d) end;
    wproj; split; reflexivity.
Qed.

Lemma sync_view_fields a b :
  sync_view a = sync_view b ->
  rtcSet a = rtcSet b /\ newboot a = newboot b /\ gps a = gps b /\
  rtc a = rtc b /\ rtc_adjusts a = rtc_adjusts b /\
  currentMillis a = currentMillis b /\ syncTimer a = syncTimer b /\
  scheduledTimer a = scheduledTimer b /\ local a = local b.
Proof.
  destruct a, b. unfold sync_view. wproj. intros H.
  injection H as -> -> -> -> -> -> -> -> -> ->. repeat split.
Qed.

(** The synchronisation state after a pass that gets beyond the wiring
    check. *)
Lemma pass_sync i w :
  no_gps_detected i = false ->
  let early := negb (rtcSet w) && fix_valid (gps w) in
  let boot := newboot w && boot_fix (in_gps i) in
  let due := sched_open (scheduledTimer w) (in_millis i) in
  let sched := due && (tm_minute (in_local i) =? 21) && fix_valid (in_gps i) in
  let w' := exec (loop i) w in
  rtc_adjusts w' =
    rtc_adjusts w ++ (if early then [gps_DateTime (gps w)] else []) ++
    (if boot then [gps_DateTime (in_gps i)] else []) ++
    (if sched then [gps_DateTime (in_gps i)] else []) /\
  newboot w' = newboot w && negb (boot_fix (in_gps i)) /\
  rtcSet w' =
    rtcSet w || negb (rtc_default (if early then gps_DateTime (gps w) else rtc w)) /\
  gps w' = in_gps i /\
  scheduledTimer w' = (if due then in_millis i else scheduledTimer w).
Proof.
  intros Hd. cbv zeta.
  rewrite loop_exec by exact Hd. rewrite loop_after_check_exec.
  destruct (loop_prologue_fields i w) as (Ha & Hr & Hset & Hn).
  cbv zeta in Ha, Hr, Hset, Hn.
  destruct (loop_prologue_timers i w) as [Hst Hsch].
  pose proof (prologue_gps i w) as Hg.
  pose proof (prologue_currentMillis i w) as Hcm.
  remember (exec (loop_prologue i) w) as w1 eqn:E1. clear E1.
  pose proof (display_stage_sync i (set_local (in_local i) (set_utc (in_utc i) w1)))
    as Hv.
  remember (exec (setBackLightBrightness (in_light_backlight i)) _) as w2 eqn:E2.
  clear E2. apply sync_view_fields in Hv.
  destruct Hv as (V1 & V2 & V3 & V4 & V5 & V6 & V7 & V8 & V9).
  assert (Hl : rtcSet w2 = rtcSet w1 /\ newboot w2 = newboot w1 /\
               gps w2 = gps w1 /\ rtc w2 = rtc w1 /\
               rtc_adjusts w2 = rtc_adjusts w1 /\
               currentMillis w2 = currentMillis w1 /\
               syncTimer w2 = syncTimer w1 /\
               scheduledTimer w2 = scheduledTimer w1 /\ local w2 = in_local i).
  { rewrite V1, V2, V3, V4, V5, V6, V7, V8, V9. destruct w1. repeat split. }
  clear V1 V2 V3 V4 V5 V6 V7 V8 V9.
  destruct Hl as (V1 & V2 & V3 & V4 & V5 & V6 & V7 & V8 & V9).
  destruct (sync_stage w2) as (Sa & Sr & Sn & Ss & Sg & Scm & Ssch & Sst).
  cbv zeta in Sa, Sr, Sn, Ss, Sg, Scm, Ssch, Sst.
  rewrite Sa, Sn, Ss, Sg, Ssch.
  rewrite V1, V2, V3, V5, V6, V8, V9, Hn, Hg, Hcm, Hsch, Ha, Hset, Hr.
  unfold fix_valid.
  destruct (negb (rtcSet w) && (date_isValid (gps w) && time_isValid (gps w)));
    rewrite <- ?app_assoc; repeat split.
Qed.

Lemma loop_hang_sync i w :
  no_gps_detected i = true ->
  rtc_adjusts (exec (loop i) w) = rtc_adjusts (exec (loop_prologue i) w) /\
  rtcSet (exec (loop i) w) = rtcSet (exec (loop_prologue i) w) /\
  newboot (exec (loop i) w) = newboot (exec (loop_prologue i) w).
Proof.
  intros H. rewrite loop_exec_hang by exact H. cbv zeta.
  destruct (exec (loop_prologue i) w). repeat split.
Qed.

(** X8.  What a pass of [loop] writes to the RTC: at most three samples,
    each taken from the decoder as it stood before the pass or as it
    stands after the decoding of that pass, and only when that decoder
    held a valid date and a valid time.  With neither valid, the pass
    writes nothing.  In a pass that runs to its end the writes are, in
    this order: the one of the prologue while [rtcSet] is false, the one
    of [syncOnBoot] while [newboot] is set and the fix has more than four
    satellites, and the one of [scheduledSync] in minute 21 once its
    window is open. *)
Theorem rtc_writes_of_a_pass (i : CycleIn) (w : World) :
  let early := negb (rtcSet w) && fix_valid (gps w) in
  let boot := newboot w && boot_fix (in_gps i) in
  let sched := sched_open (scheduledTimer w) (in_millis i)
               && (tm_minute (in_local i) =? 21) && fix_valid (in_gps i) in
  (exists ws,
     rtc_adjusts (exec (loop i) w) = rtc_adjusts w ++ ws /\
     (List.length ws <= 3)%nat /\
     Forall (from_valid_fix [gps w; in_gps i]) ws /\
     (fix_valid (gps w) = false -> fix_valid (in_gps i) = false -> ws = [])) /\
  (no_gps_detected i = false ->
   rtc_adjusts (exec (loop i) w) =
     rtc_adjusts w ++ (if early then [gps_DateTime (gps w)] else []) ++
     (if boot then [gps_DateTime (in_gps i)] else []) ++
     (if sched then [gps_DateTime (in_gps i)] else [])).
Proof.
  cbv zeta.
  assert (Hb : boot_fix (in_gps i) = true -> fix_valid (in_gps i) = true).
  { unfold boot_fix, fix_valid. intros H. apply andb_true_iff in H. tauto. }
  assert (V1 : fix_valid (gps w) = true ->
               from_valid_fix [gps w; in_gps i] (gps_DateTime (gps w))).
  { intros H. exists (gps w). simpl. auto. }
  assert (V2 : fix_valid (in_gps i) = true ->
               from_valid_fix [gps w; in_gps i] (gps_DateTime (in_gps i))).
  { intros H. exists (in_gps i). simpl. auto. }
  split.
  - destruct (no_gps_detected i) eqn:Hd.
    + destruct (loop_hang_sync i w Hd) as (Ha & _ & _). rewrite Ha.
      destruct (loop_prologue_fields i w) as (Hp & _). cbv zeta in Hp.
      rewrite Hp. fold (fix_valid (gps w)).
      destruct (rtcSet w); cbn [negb andb].
      * exists []. rewrite app_nil_r. repeat split; auto; simpl; lia.
      * destruct (fix_valid (gps w)) eqn:Hv.
        -- exists [gps_DateTime (gps w)].
           repeat split; simpl; auto; try lia; congruence.
        -- exists []. rewrite app_nil_r. repeat split; auto; simpl; lia.
    + destruct (pass_sync i w Hd) as (Ha & _). cbv zeta in Ha. rewrite Ha.
      eexists. split; [reflexivity|].
      destruct (fix_valid (gps w)) eqn:Hv1, (fix_valid (in_gps i)) eqn:Hv2,
        (rtcSet w), (newboot w), (boot_fix (in_gps i)),
        (sched_open (scheduledTimer w) (in_millis i)),
        (tm_minute (in_local i) =? 21);
        cbn [negb andb app List.length];
        (split; [lia|]); (split; [repeat constructor; auto|]);
        try (intros; congruence); try (intros; reflexivity);
        try (specialize (Hb eq_refl); congruence).
  - intros Hd. destruct (pass_sync i w Hd) as (Ha & _). exact Ha.
Qed.



Lemma loop_latches i w :
  (rtcSet w = true -> rtcSet (exec (loop i) w) = true) /\
  (newboot w = false -> newboot (exec (loop i) w) = false).
Proof.
  destruct (loop_prologue_fields i w) as (_ & _ & Hset & Hn).
  cbv zeta in Hset, Hn.
  destruct (no_gps_detected i) eqn:Hd.
  - destruct (loop_hang_sync i w Hd) as (_ & Hs & Hb). rewrite Hs, Hb, Hset, Hn.
    split; intros H; rewrite H; reflexivity.
  - destruct (pass_sync i w Hd) as (_ & N & S & _). cbv zeta in N, S.
    rewrite N, S. split; intros H; rewrite H; reflexivity.
Qed.

Lemma run_cons i rest w :
  run (i :: rest) w =
  if no_gps_detected i then Hang (exec (loop i) w) else run rest (exec (loop i) w).
Proof.
  pose proof (loop_hangs i w) as H. unfold exec. simpl.
  destruct (loop i w) as [[] w'|w']; simpl in *; rewrite <- H; reflexivity.
Qed.

(** X10.  Over any number of passes, a clock that counts as set stays
    so, and the boot synchronisation, once done, is never due again:
    [rtcSet] never goes back to false and [newboot] never back to true. *)
Theorem sync_state_latches (passes : list CycleIn) (w : World) :
  (rtcSet w = true -> rtcSet (world_of (run passes w)) = true) /\
  (newboot w = false -> newboot (world_of (run passes w)) = false).
Proof.
  revert w. induction passes as [|i rest IH]; intros w; [split; trivial|].
  rewrite run_cons. destruct (loop_latches i w) as [L1 L2].
  destruct (no_gps_detected i).
  - split; assumption.
  - destruct (IH (exec (loop i) w)) as [I1 I2]. split; auto.
Qed.

(** X11.  The wiring check is the only thing that can stop the passes:
    a sequence of passes hangs exactly when one of them starts above
    5000 ms with fewer than 10 characters decoded. *)
Theorem run_hangs_iff (passes : list CycleIn) (w : World) :
  hangs (run passes w) = existsb no_gps_detected passes.
Proof.
  revert w. induction passes as [|i rest IH]; intros w; [reflexivity|].
  rewrite run_cons. simpl. destruct (no_gps_detected i); [reflexivity | apply IH].
Qed.

(** X12.  A pass on a world in which the clock does not count as set,
    without a valid date and time in the decoder, makes the clock count
    as set as soon as the RTC reads a second other than zero, whatever
    its year: [rtcSet] becomes true although the prologue writes nothing
    to the RTC and leaves what it holds. *)
Theorem ticking_rtc_counts_as_set (i : CycleIn) (w : World) :
  rtcSet w = false ->
  fix_valid (gps w) = false ->
  dt_second (rtc w) <> 0 ->
  rtcSet (exec (loop i) w) = true /\
  rtc_adjusts (exec (loop_prologue i) w) = rtc_adjusts w /\
  rtc (exec (loop_prologue i) w) = rtc w.
Proof.
  intros Hs Hv Hsec.
  assert (Hdef : rtc_default (rtc w) = false).
  { unfold rtc_default.
    destruct (Z.eqb_spec (dt_second (rtc w)) 0); [contradiction|].
    rewrite andb_false_r. reflexivity. }
  destruct (loop_prologue_fields i w) as (Ha & Hr & Hset & _).
  cbv zeta in Ha, Hr, Hset. fold (fix_valid (gps w)) in Ha, Hr.
  rewrite Hs, Hv in Ha, Hr. cbn [negb andb] in Ha, Hr.
  rewrite Hr, Hs, Hdef in Hset. cbn [negb orb] in Hset.
  split; [|split; [exact Ha|exact Hr]].
  destruct (no_gps_detected i) eqn:Hd.
  - destruct (loop_hang_sync i w Hd) as (_ & H & _). rewrite H. exact Hset.
  - destruct (pass_sync i w Hd) as (_ & _ & S & _). cbv zeta in S.
    rewrite S, Hs, Hv. cbn [negb andb orb]. rewrite Hdef. reflexivity.
Qed.

(** X12 (witness): the unset RTC one second after power-on. *)
Lemma ticking_rtc_counts_as_set_witness :
  rtcSet (exec (loop (pass 1000 gps_fresh evening 40)) (power_on rtc_ticking)) = true.
Proof.
  assert (Hsec : dt_second (rtc (power_on rtc_ticking)) <> 0) by discriminate.
  exact (proj1 (ticking_rtc_counts_as_set (pass 1000 gps_fresh evening 40)
                  (power_on rtc_ticking) eq_refl eq_refl Hsec)).
Defined.

(** ** The rate limits of the synchronisation routines *)

Lemma set_currentMillis_fields cm w :
  scheduledTimer (set_currentMillis cm w) = scheduledTimer w /\
  syncTimer (set_currentMillis cm w) = syncTimer w /\
  currentMillis (set_currentMillis cm w) = cm /\
  newboot (set_currentMillis cm w) = newboot w /\
  gps (set_currentMillis cm w) = gps w.
Proof. destruct w. repeat split. Qed.




(** ** Brightness and colour as functions of the readings *)

(** X15.  The backlight level [setBackLightBrightness] sets is one of 5,
    20, 50 and 255, depends on the reading alone (not on the level set
    before) and never goes down when the reading goes up. *)
Theorem backlight_monotone (r1 r2 : Z) (w1 w2 : World) :
  let level := fun r w => backlightVal (exec (setBackLightBrightness r) w) in
  In (level r1 w1) [5; 20; 50; 255] /\
  level r1 w1 = level r1 w2 /\
  (r1 <= r2 -> level r1 w1 <= level r2 w2).
Proof.
  cbv beta zeta. rewrite !setBackLightBrightness_exec.
  destruct w1, w2. wproj.
  destruct (Z.ltb_spec r1 20), (Z.leb_spec r1 50), (Z.leb_spec r1 100),
    (Z.ltb_spec r2 20), (Z.leb_spec r2 50), (Z.leb_spec r2 100);
    simpl; repeat split; intros; try lia; tauto.
Qed.

(** X16.  After [setNumberColor] the colour of the digits is red exactly
    when the local hour is 20 or later or before 6 and the reading is at
    most 100, and white otherwise, whatever it was before; a second call
    with the same reading changes nothing any more. *)
Theorem setNumberColor_settles (r : Z) (w : World) :
  let w' := exec (setNumberColor r) w in
  let night := (20 <= tm_hour (local w) \/ tm_hour (local w) < 6) /\ r <= 100 in
  (numberColor w' = ILI9340_RED <-> night) /\
  (numberColor w' = ILI9340_WHITE <-> ~ night) /\
  exec (setNumberColor r) w' = w'.
Proof.
  cbv zeta.
  destruct (setNumberColor_fields r w) as (Hc & _ & _ & Hl & _).
  cbv zeta in Hc, Hl.
  split; [|split].
  - rewrite Hc. unfold color_tier.
    destruct (Z.leb_spec 20 (tm_hour (local w))), (Z.ltb_spec (tm_hour (local w)) 6),
      (Z.leb_spec r 100); simpl; split; intros; try discriminate; try lia;
      reflexivity.
  - rewrite Hc. unfold color_tier.
    destruct (Z.leb_spec 20 (tm_hour (local w))), (Z.ltb_spec (tm_hour (local w)) 6),
      (Z.leb_spec r 100); simpl; split; intros; try discriminate; try lia;
      try reflexivity; exfalso; lia.
  - rewrite (setNumberColor_exec r (exec (setNumberColor r) w)). cbv zeta.
    rewrite Hl, Hc, Color_eqb_refl.
    rewrite setNumberColor_exec. cbv zeta.
    destruct (Color_eqb (numberColor w) (color_tier (local w) r));
      destruct w; reflexivity.
Qed.

(** ** The redraw counter and the idle pass *)

(** X17.  On a world in which the clock is set, a pass that runs to its
    end without a change of colour takes one off [colorChange] for each
    of the two regions it redraws, whether the redraw is due to the
    counter, to the clock (midnight window, top of the minute) or to the
    first 2.5 s: the counter is not kept at zero and runs below it. *)
Theorem holdoff_counts_every_redraw (i : CycleIn) (w : World) :
  rtcSet w = true ->
  no_gps_detected i = false ->
  color_tier (in_local i) (in_light_color i) = numberColor w ->
  -32766 <= colorChange w < 32768 ->
  let dd := date_due (in_local i) (in_ms_date i) (colorChange w) in
  let cc := colorChange w - (if dd then 1 else 0) in
  let td := time_due (in_local i) (in_ms_time i) cc in
  colorChange (exec (loop i) w) = cc - (if td then 1 else 0) /\
  (in_ms_date i < 2500 -> in_ms_time i < 2500 ->
   colorChange (exec (loop i) w) = colorChange w - 2).
Proof.
  intros Hs Hd Ht Hcc. cbv zeta.
  destruct (synced_pass i w Hs Hd) as [_ Hv]. cbv zeta in Hv.
  rewrite Ht, Color_eqb_refl in Hv. unfold display_view in Hv.
  assert (E : colorChange (exec (loop i) w) =
    after_region
      (time_due (in_local i) (in_ms_time i)
         (after_region (date_due (in_local i) (in_ms_date i) (colorChange w))
            (colorChange w)))
      (after_region (date_due (in_local i) (in_ms_date i) (colorChange w))
         (colorChange w))) by congruence.
  clear Hv.
  assert (A1 : after_region (date_due (in_local i) (in_ms_date i) (colorChange w))
                 (colorChange w) =
               colorChange w -
               (if date_due (in_local i) (in_ms_date i) (colorChange w) then 1 else 0)).
  { unfold after_region. destruct (date_due _ _ _); [apply i16_small|]; lia. }
  rewrite A1 in E.
  assert (A2 : forall b c, -32767 <= c < 32768 ->
                 after_region b c = c - (if b then 1 else 0)).
  { intros b c Hc. unfold after_region. destruct b; [apply i16_small|]; lia. }
  rewrite A2 in E by (destruct (date_due _ _ _); lia).
  split; [exact E|].
  intros H1 H2. rewrite E.
  assert (D : date_due (in_local i) (in_ms_date i) (colorChange w) = true).
  { unfold date_due. destruct (Z.ltb_spec (in_ms_date i) 2500); [|lia].
    rewrite orb_true_r. reflexivity. }
  rewrite D.
  assert (T : time_due (in_local i) (in_ms_time i) (colorChange w - 1) = true).
  { unfold time_due. destruct (Z.ltb_spec (in_ms_time i) 2500); [|lia].
    rewrite orb_true_r. reflexivity. }
  rewrite T. lia.
Qed.

(** X17 (witness): the first paint after [setup] on a set clock. *)
Lemma holdoff_counts_every_redraw_witness :
  colorChange (exec (loop (pass 1000 (gps_fix 6 500) t195958 40)) booted) = -2.
Proof.
  assert (Hcc : -32766 <= colorChange booted < 32768) by (vm_compute; split; congruence).
  pose proof (holdoff_counts_every_redraw (pass 1000 (gps_fix 6 500) t195958 40)
                booted eq_refl eq_refl eq_refl Hcc) as H.
  cbv zeta in H. destruct H as [_ H].
  exact (H eq_refl eq_refl).
Defined.

(** X18.  On a world in which the clock is set, a pass in which nothing
    is due (colour unchanged, counter run out, second neither 0 nor 30,
    past the first 2.5 s, outside the five minutes after midnight) sends
    the four lines of the seconds animation to the display and nothing
    else, and leaves the counter as it is. *)
Theorem idle_pass_draws_seconds_only (i : CycleIn) (w : World) :
  rtcSet w = true ->
  no_gps_detected i = false ->
  color_tier (in_local i) (in_light_color i) = numberColor w ->
  colorChange w <= 0 ->
  tm_second (in_local i) <> 0 -> tm_second (in_local i) <> 30 ->
  2500 <= in_ms_date i -> 2500 <= in_ms_time i -> 2500 <= in_ms_sats i ->
  ~ (tm_hour (in_local i) = 0 /\ tm_minute (in_local i) < 5) ->
  let sec := tm_second (in_local i) in
  tft (exec (loop i) w) =
    tft w ++
    [drawFastVLine (sec * 4 - 8) 80 4 ILI9340_BLACK;
     drawFastVLine (sec * 4 - 4) 80 3 ILI9340_BLACK;
     drawFastVLine (sec * 4) 80 5 ILI9340_GREEN;
     drawFastVLine (sec * 4 + 4) 83 2 ILI9340_GREEN] /\
  colorChange (exec (loop i) w) = colorChange w.
Proof.
  intros Hs Hd Ht Hcc Hs0 Hs30 Hm1 Hm2 Hm3 Hmid. cbv zeta.
  destruct (synced_pass i w Hs Hd) as [Htft Hv]. cbv zeta in Htft, Hv.
  rewrite Ht, Color_eqb_refl in Htft, Hv.
  assert (D : date_due (in_local i) (in_ms_date i) (colorChange w) = false).
  { unfold date_due.
    destruct (Z.ltb_spec (in_ms_date i) 2500); [lia|].
    destruct (Z.ltb_spec 0 (colorChange w)); [lia|].
    destruct (Z.eqb_spec (tm_hour (in_local i)) 0),
      (Z.ltb_spec (tm_minute (in_local i)) 5); try reflexivity. tauto. }
  rewrite D in Htft, Hv. cbv [after_region] in Htft, Hv.
  assert (T : time_due (in_local i) (in_ms_time i) (colorChange w) = false).
  { unfold time_due.
    destruct (Z.eqb_spec (tm_second (in_local i)) 0); [contradiction|].
    destruct (Z.ltb_spec (in_ms_time i) 2500); [lia|].
    destruct (Z.ltb_spec 0 (colorChange w)); [lia|]. reflexivity. }
  rewrite T in Htft, Hv.
  split.
  - rewrite Htft. unfold secondDot_calls, sats_calls.
    destruct (Z.eqb_spec (tm_second (in_local i)) 0); [contradiction|].
    destruct (Z.eqb_spec (tm_second (in_local i)) 30); [contradiction|].
    destruct (Z.ltb_spec (in_ms_sats i) 2500); [lia|].
    cbn [orb app]. rewrite ?app_nil_r. reflexivity.
  - unfold display_view in Hv. congruence.
Qed.

(** X18 (witness): 20:00:02 on a set clock, after the passes at 19:59:58
    and 20:00:01. *)
Lemma idle_pass_draws_seconds_only_witness :
  colorChange
    (exec (loop (pass 100800 (gps_fix 6 1300) t200002 40))
       (exec (loop (pass 100400 (gps_fix 6 900) t200001 40)) booted)) = 0.
Proof.
  assert (H1 : rtcSet (exec (loop (pass 100400 (gps_fix 6 900) t200001 40)) booted)
               = true) by (vm_compute; reflexivity).
  assert (H2 : color_tier (in_local (pass 100800 (gps_fix 6 1300) t200002 40))
                 (in_light_color (pass 100800 (gps_fix 6 1300) t200002 40)) =
               numberColor (exec (loop (pass 100400 (gps_fix 6 900) t200001 40)) booted))
    by (vm_compute; reflexivity).
  assert (H3 : colorChange (exec (loop (pass 100400 (gps_fix 6 900) t200001 40)) booted)
               <= 0) by (vm_compute; discriminate).
  assert (H4 : tm_second (in_local (pass 100800 (gps_fix 6 1300) t200002 40)) <> 0)
    by discriminate.
  assert (H5 : tm_second (in_local (pass 100800 (gps_fix 6 1300) t200002 40)) <> 30)
    by discriminate.
  assert (H6 : 2500 <= 100800) by discriminate.
  assert (H7 : ~ (tm_hour (in_local (pass 100800 (gps_fix 6 1300) t200002 40)) = 0 /\
                  tm_minute (in_local (pass 100800 (gps_fix 6 1300) t200002 40)) < 5))
    by (intros [H _]; discriminate).
  pose proof (idle_pass_draws_seconds_only
                (pass 100800 (gps_fix 6 1300) t200002 40)
                (exec (loop (pass 100400 (gps_fix 6 900) t200001 40)) booted)
                H1 eq_refl H2 H3 H4 H5 H6 H6 H6 H7) as H.
  cbv zeta in H. destruct H as [_ H]. rewrite H. vm_compute. reflexivity.
Defined.

(** ** The seconds animation *)

Lemma seconds_all (P : Z -> bool) :
  forallb P seconds = true -> forall s, 0 <= s <= 59 -> P s = true.
Proof.
  intros H s Hs. rewrite forallb_forall in H. apply H.
  unfold seconds. apply in_map_iff. exists (Z.to_nat s).
  split; [lia|]. apply in_seq. lia.
Qed.

(** X19.  [secondDotDisplay2] draws vertical lines only, in rows 80 to
    84, between the two borders of [secondsBorder] (rows 72-74 and
    90-92).  For the seconds 2 to 58 they lie in columns 0 to 239; for
    the seconds 0 and 1 the lines that blank the marks of the seconds
    before are at columns below 0, and for second 59 the second mark is
    at column 240, past the 240 columns of the borders. *)
Theorem seconds_marks_columns (w : World) :
  0 <= tm_second (local w) <= 59 ->
  exists marks,
    tft (exec secondDotDisplay2 w) = tft w ++ marks /\
    forallb is_line marks = true /\
    forallb (within (-8) 241 80 85) marks = true /\
    (forallb (within 0 240 80 85) marks = true <->
     2 <= tm_second (local w) <= 58).
Proof.
  intros Hs. exists (secondDot_calls (tm_second (local w))).
  split; [rewrite secondDotDisplay2_exec; destruct w; reflexivity|].
  pose proof (seconds_all
    (fun s => forallb is_line (secondDot_calls s)
              && forallb (within (-8) 241 80 85) (secondDot_calls s)
              && Bool.eqb (forallb (within 0 240 80 85) (secondDot_calls s))
                          ((2 <=? s) && (s <=? 58)))
    ltac:(vm_compute; reflexivity) _ Hs) as H.
  cbv beta in H. apply andb_true_iff in H. destruct H as [H H3].
  apply andb_true_iff in H. destruct H as [H1 H2].
  split; [exact H1|]. split; [exact H2|].
  apply Bool.eqb_prop in H3. rewrite H3, andb_true_iff, Z.leb_le, Z.leb_le.
  tauto.
Qed.

(** X19 (witness): second 59. *)
Lemma seconds_marks_columns_witness :
  exists marks,
    tft (exec secondDotDisplay2 (set_local (mkTm 59 59 19 1 10 3 2024) booted)) =
      tft (set_local (mkTm 59 59 19 1 10 3 2024) booted) ++ marks /\
    forallb (within 0 240 80 85) marks = false.
Proof.
  assert (Hs : 0 <= tm_second (local (set_local (mkTm 59 59 19 1 10 3 2024) booted)) <= 59)
    by (vm_compute; split; discriminate).
  destruct (seconds_marks_columns _ Hs) as (marks & E & _ & _ & H).
  exists marks. split; [exact E|].
  destruct (forallb (within 0 240 80 85) marks); [|reflexivity].
  exfalso. destruct H as [H _]. specialize (H eq_refl).
  vm_compute in H. destruct H as [_ H]. apply H. reflexivity.
Defined.

(** ** What [setup] does *)

Lemma setup_after_check_tft b w :
  tft (exec (setup_after_check b) w) = tft w ++ [tft_begin; fillScreen ILI9340_BLACK;
   drawFastHLine 0 72 240 ILI9340_BLUE; drawFastHLine 0 73 240 ILI9340_BLUE;
   drawFastHLine 0 74 240 ILI9340_BLUE; drawFastHLine 0 90 240 ILI9340_BLUE;
   drawFastHLine 0 91 240 ILI9340_BLUE; drawFastHLine 0 92 240 ILI9340_BLUE].
Proof.
  destruct w. unfold setup_after_check, secondsBorder.
  destruct (timeStatus_timeSet b); mrun; cbv [negb];
    rewrite <- !app_assoc; reflexivity.
Qed.

Lemma setup_keeps_rtc b :
  keeps (fun w => (rtc_adjusts w, rtc w, newboot w)) (setup b).
Proof.
  unfold setup, checkRTCset, secondsBorder, Serial_println_str, Serial_print_str,
    Serial_call, tft_call, analogWrite_backlight.
  auto 120 with keeps_db.
Qed.

(** X20.  [setup] never writes the RTC, also not when the RTC reports
    that it is not running, and leaves [newboot] set.  It first turns the
    backlight off; when the RTC is found it then clears the screen and
    draws the two blue borders, three lines each, and when the RTC is not
    found it hangs without a call to the display. *)
Theorem setup_effects (b : BootIn) (w : World) :
  let w' := world_of (setup b w) in
  rtc_adjusts w' = rtc_adjusts w /\ rtc w' = rtc w /\ newboot w' = newboot w /\
  backlight w' = backlight w ++ [0] /\
  tft w' = tft w ++ (if rtc_begin b then setup_calls else []) /\
  hangs (setup b w) = negb (rtc_begin b).
Proof.
  cbv zeta.
  pose proof (setup_keeps_rtc b w) as K. cbv beta in K.
  injection K as K1 K2 K3.
  split; [exact K1|]. split; [exact K2|]. split; [exact K3|].
  destruct (rtc_begin b) eqn:Hb.
  - destruct (setup_rtcSet b w Hb) as [Hh _].
    rewrite setup_found in * by exact Hb.
    fold (exec (analogWrite_backlight 0 ;;
      when (negb (rtc_isrunning b)) (Serial_println_str "RTC is NOT running!") ;;
      checkRTCset ;; setup_after_check b) w).
    rewrite !exec_seq by auto 20 with total_db.
    split; [|split; [|exact Hh]].
    + assert (Kb : keeps backlight (setup_after_check b)).
      { unfold setup_after_check, secondsBorder, Serial_println_str,
          Serial_print_str, Serial_call, tft_call. auto 80 with keeps_db. }
      rewrite (keeps_exec Kb).
      assert (Kc : keeps backlight checkRTCset).
      { unfold checkRTCset, Serial_println_str, Serial_call. auto 20 with keeps_db. }
      rewrite (keeps_exec Kc).
      destruct w; destruct (rtc_isrunning b); reflexivity.
    + rewrite setup_after_check_tft, checkRTCset_tft.
      destruct w; destruct (rtc_isrunning b); reflexivity.
  - unfold setup, bind. rewrite Hb. destruct w. simpl.
    rewrite app_nil_r. repeat split.
Qed.

(** ** The animation [loop] does not use *)

Lemma secondDotDisplay1_exec w :
  exec secondDotDisplay1 w =
  set_tft (tft w ++
           (if tm_second (local w) =? 0
            then [drawFastHLine 0 80 240 ILI9340_BLACK;
                  drawFastHLine 0 81 240 ILI9340_BLACK;
                  drawFastHLine 0 82 240 ILI9340_BLACK;
                  drawFastHLine 0 83 240 ILI9340_BLACK]
            else []) ++
           [drawFastVLine (tm_second (local w) * 4) 80 5 ILI9340_GREEN]) w.
Proof.
  destruct w as [? ? ? ? ? ? l ? ? ? ? ? ? ? ? ? ? ?].
  unfold secondDotDisplay1.
  destruct (tm_second l =? 0) eqn:E; mrun; rewrite ?E; mrun;
    rewrite <- ?app_assoc; reflexivity.
Qed.

(** X21.  [secondDotDisplay1], which [loop] does not call, ends with the
    same green mark for the second as [secondDotDisplay2] draws (column
    four times the second, rows 80 to 84), and for every second 0 to 59
    all it draws is inside the 240 columns.  What it draws before the
    mark, at second 0 only, are lines in rows 80 to 83: the blanking does
    not reach row 84, the lowest pixel of the marks. *)
Theorem secondDotDisplay1_marks (w : World) :
  0 <= tm_second (local w) <= 59 ->
  let mark := drawFastVLine (tm_second (local w) * 4) 80 5 ILI9340_GREEN in
  exists blanking,
    tft (exec secondDotDisplay1 w) = tft w ++ blanking ++ [mark] /\
    In mark (secondDot_calls (tm_second (local w))) /\
    (blanking = [] <-> tm_second (local w) <> 0) /\
    forallb (within 0 240 80 84) blanking = true /\
    within 0 240 80 84 mark = false /\
    within 0 240 80 85 mark = true.
Proof.
  intros Hs. cbv zeta.
  exists (if tm_second (local w) =? 0
          then [drawFastHLine 0 80 240 ILI9340_BLACK;
                drawFastHLine 0 81 240 ILI9340_BLACK;
                drawFastHLine 0 82 240 ILI9340_BLACK;
                drawFastHLine 0 83 240 ILI9340_BLACK]
          else []).
  split; [rewrite secondDotDisplay1_exec; destruct w; reflexivity|].
  split.
  { unfold secondDot_calls. apply in_or_app. right. simpl. auto. }
  split.
  { destruct (Z.eqb_spec (tm_second (local w)) 0); split; intros H;
      try congruence; try discriminate; contradiction. }
  split; [destruct (tm_second (local w) =? 0); reflexivity|].
  unfold within. split.
  - replace (80 + 5 <=? 84) with false by reflexivity.
    rewrite andb_false_r. reflexivity.
  - replace (80 + 5 <=? 85) with true by reflexivity.
    replace (80 <=? 80) with true by reflexivity.
    rewrite !andb_true_r. apply andb_true_iff. split.
    + apply Z.leb_le. lia.
    + apply Z.ltb_lt. lia.
Qed.

(** X21 (witness): second 0, where the blanking is drawn. *)
Lemma secondDotDisplay1_marks_witness :
  exists blanking,
    tft (exec secondDotDisplay1 (set_local (mkTm 0 0 20 1 10 3 2024) booted)) =
      tft (set_local (mkTm 0 0 20 1 10 3 2024) booted) ++ blanking ++
      [drawFastVLine 0 80 5 ILI9340_GREEN] /\
    forallb (within 0 240 80 84) blanking = true.
Proof.
  assert (Hs : 0 <= tm_second (local (set_local (mkTm 0 0 20 1 10 3 2024) booted)) <= 59)
    by (vm_compute; split; discriminate).
  pose proof (secondDotDisplay1_marks _ Hs) as H. cbv zeta in H.
  destruct H as (blanking & E & _ & _ & B & _).
  exists blanking. split; [exact E | exact B].
Defined.
